(** * RWA Sentinel Protocol - AI Legal Core (ai-legal-core/main.py)

    A shallow embedding of the legal oracle's audit pipeline:
    [verify_signature], [analyze_legal_document] and [audit_contract],
    together with the library behaviour they rely on (Python [str]
    operations, UTF-8, EIP-191 message encoding, SHA-256).

    Python strings are sequences of Unicode code points; they are modelled
    as lists of [N].  Calls into collaborators whose result the program
    cannot control (environment, signature recovery, the completion
    service, the JSON parser, Unicode case mapping) are fields of the
    record [Externals]; every statement below quantifies over it. *)

From Stdlib Require Import List NArith ZArith QArith Bool Lia String Ascii DecimalString.
Import ListNotations.

Local Open Scope N_scope.
Local Open Scope list_scope.

(** ** Python [str] and [bytes] *)

Module PyStr.

(** A [str] is a list of code points, a [bytes] a list of octets. *)
Definition str := list N.
Definition bytes := list N.

(** ASCII literal. *)
Definition lit (s : string) : str :=
  map N_of_ascii (list_ascii_of_string s).

(** [a == b] on strings. *)
Fixpoint eqb (a b : str) : bool :=
  match a, b with
  | [], [] => true
  | c :: a', d :: b' => (c =? d) && eqb a' b'
  | _, _ => false
  end.

(** [s.startswith(p)]. *)
Fixpoint startswith (s p : str) {struct p} : bool :=
  match p with
  | [] => true
  | c :: p' =>
      match s with
      | [] => false
      | d :: s' => (d =? c) && startswith s' p'
      end
  end.

(** [needle in hay] (substring test). *)
Fixpoint contains (needle hay : str) : bool :=
  startswith hay needle
  || match hay with
     | [] => false
     | _ :: hay' => contains needle hay'
     end.

(** [c.isspace()]: the code points that [str.strip()] removes. *)
Definition isspace (c : N) : bool :=
  ((9 <=? c) && (c <=? 13)) || ((28 <=? c) && (c <=? 32))
  || (c =? 133) || (c =? 160) || (c =? 5760)
  || ((8192 <=? c) && (c <=? 8202))
  || (c =? 8232) || (c =? 8233) || (c =? 8239) || (c =? 8287)
  || (c =? 12288).

Fixpoint lstrip (s : str) : str :=
  match s with
  | [] => []
  | c :: s' => if isspace c then lstrip s' else s
  end.

Definition rstrip (s : str) : str := rev (lstrip (rev s)).

(** [s.strip()]. *)
Definition strip (s : str) : str := rstrip (lstrip s).

(** [s.split(sep)] for a one-character separator: always at least one
    piece, empty pieces kept. *)
Fixpoint split (sep : N) (s : str) : list str :=
  match s with
  | [] => [[]]
  | c :: s' =>
      if c =? sep then [] :: split sep s'
      else match split sep s' with
           | [] => [[c]]
           | l :: ls => (c :: l) :: ls
           end
  end.

(** [sep.join(pieces)] for a one-character separator. *)
Fixpoint join (sep : N) (pieces : list str) : str :=
  match pieces with
  | [] => []
  | [l] => l
  | l :: ls => l ++ sep :: join sep ls
  end.

(** [s[:n]]. *)
Definition slice_to (n : N) (s : str) : str := firstn (N.to_nat n) s.

(** Truth value of a string: non-empty. *)
Definition truthy (s : str) : bool :=
  match s with [] => false | _ :: _ => true end.

(** [str(n)] for a non-negative integer, as ASCII digits. *)
Definition decimal (n : N) : str :=
  lit (NilEmpty.string_of_uint (N.to_uint n)).

End PyStr.
Import PyStr.

(** ** Exceptions and results *)

(** The exceptions the program can see.  [HTTPException] is the one
    [audit_contract] raises itself; every other [Exception] subclass is
    carried by its class name and its [str(e)] text.  What is not an
    [Exception] (task cancellation, interpreter exit) passes through
    [except Exception] and is not modelled. *)
Inductive exn : Type :=
| HTTPException (status_code : N) (detail : str)
| Exception (cls : str) (text : str).

(** [str(e)]; for [HTTPException], Starlette's [status_code: detail]. *)
Definition str_of_exn (e : exn) : str :=
  match e with
  | HTTPException c d => decimal c ++ lit ": " ++ d
  | Exception _ t => t
  end.

(** The result of evaluating an expression: a value, or a raised
    exception. *)
Inductive res (A : Type) : Type :=
| Ok (a : A)
| Raise (e : exn).
Arguments Ok {A} a.
Arguments Raise {A} e.

(** ** UTF-8 ([str.encode("utf-8")]) *)

Module Utf8.

Definition is_surrogate (c : N) : bool := (0xD800 <=? c) && (c <=? 0xDFFF).

(** The octets of one code point; [None] for a surrogate or a value
    beyond U+10FFFF, which the codec refuses. *)
Definition encode_cp (c : N) : option bytes :=
  if c <? 0x80 then Some [c]
  else if c <? 0x800 then
    Some [0xC0 + c / 64; 0x80 + c mod 64]
  else if c <? 0x10000 then
    if is_surrogate c then None
    else Some [0xE0 + c / 4096; 0x80 + (c / 64) mod 64; 0x80 + c mod 64]
  else if c <? 0x110000 then
    Some [0xF0 + c / 262144; 0x80 + (c / 4096) mod 64;
          0x80 + (c / 64) mod 64; 0x80 + c mod 64]
  else None.

Fixpoint encode_opt (s : str) : option bytes :=
  match s with
  | [] => Some []
  | c :: s' =>
      match encode_cp c, encode_opt s' with
      | Some b, Some bs => Some (b ++ bs)
      | _, _ => None
      end
  end.

(** [s.encode("utf-8")]: raises [UnicodeEncodeError] when a code point
    cannot be encoded. *)
Definition encode (s : str) : res bytes :=
  match encode_opt s with
  | Some b => Ok b
  | None =>
      Raise (Exception (lit "UnicodeEncodeError")
               (lit "'utf-8' codec can't encode character: surrogates not allowed"))
  end.

End Utf8.

(** ** SHA-256 ([hashlib.sha256(...).hexdigest()]), FIPS 180-4 *)

Module SHA256.

Definition mask32 : N := 0xFFFFFFFF.
Definition add32 (a b : N) : N := N.land (a + b) mask32.
Definition rotr (n x : N) : N :=
  N.lor (N.shiftr x n) (N.land (N.shiftl x (32 - n)) mask32).
Definition not32 (x : N) : N := N.lxor x mask32.

Definition Ch (x y z : N) : N :=
  N.lxor (N.land x y) (N.land (not32 x) z).
Definition Maj (x y z : N) : N :=
  N.lxor (N.lxor (N.land x y) (N.land x z)) (N.land y z).
Definition Sigma0 (x : N) : N :=
  N.lxor (N.lxor (rotr 2 x) (rotr 13 x)) (rotr 22 x).
Definition Sigma1 (x : N) : N :=
  N.lxor (N.lxor (rotr 6 x) (rotr 11 x)) (rotr 25 x).
Definition sigma0 (x : N) : N :=
  N.lxor (N.lxor (rotr 7 x) (rotr 18 x)) (N.shiftr x 3).
Definition sigma1 (x : N) : N :=
  N.lxor (N.lxor (rotr 17 x) (rotr 19 x)) (N.shiftr x 10).

(** The constants are defined as the standard defines them: the first 32
    bits of the fractional parts of the cube roots (round constants) and
    square roots (initial hash value) of the first primes. *)
Definition primes : list N :=
  [ 2; 3; 5; 7; 11; 13; 17; 19; 23; 29; 31; 37; 41; 43; 47; 53;
    59; 61; 67; 71; 73; 79; 83; 89; 97; 101; 103; 107; 109; 113; 127; 131;
    137; 139; 149; 151; 157; 163; 167; 173; 179; 181; 191; 193; 197; 199;
    211; 223; 227; 229; 233; 239; 241; 251; 257; 263; 269; 271; 277; 281;
    283; 293; 307; 311 ].

(** Integer cube root, one bit at a time from bit [n - 1] down. *)
Fixpoint cbrt_bits (n : nat) (x r : N) : N :=
  match n with
  | O => r
  | S n' =>
      let c := N.lor r (N.shiftl 1 (N.of_nat n')) in
      cbrt_bits n' x (if c * c * c <=? x then c else r)
  end.

Definition frac_cbrt32 (p : N) : N :=
  N.land (cbrt_bits 40 (N.shiftl p 96) 0) mask32.
Definition frac_sqrt32 (p : N) : N :=
  N.land (N.sqrt (N.shiftl p 64)) mask32.

Definition K : list N := Eval vm_compute in map frac_cbrt32 primes.
Definition H0 : list N := Eval vm_compute in map frac_sqrt32 (firstn 8 primes).

(** Big-endian octets of [x], [n] of them. *)
Fixpoint be_bytes (n : nat) (x : N) : bytes :=
  match n with
  | O => []
  | S n' => N.land (N.shiftr x (8 * N.of_nat n')) 0xFF :: be_bytes n' x
  end.

(** Message padding: a 1 bit, zeros up to 56 mod 64, the bit length. *)
Definition pad (msg : bytes) : bytes :=
  let len := N.of_nat (List.length msg) in
  let zeros := (64 + 55 - len mod 64) mod 64 in
  msg ++ 0x80 :: repeat 0 (N.to_nat zeros) ++ be_bytes 8 (8 * len).

(** Big-endian 32-bit words of a block. *)
Fixpoint words (n : nat) (b : bytes) : list N :=
  match n with
  | O => []
  | S n' =>
      match b with
      | b0 :: b1 :: b2 :: b3 :: rest =>
          (b0 * 16777216 + b1 * 65536 + b2 * 256 + b3) :: words n' rest
      | _ => []
      end
  end.

(** The message schedule, newest word first. *)
Fixpoint schedule (n : nat) (wrev : list N) : list N :=
  match n with
  | O => wrev
  | S n' =>
      let w := add32 (add32 (sigma1 (nth 1 wrev 0)) (nth 6 wrev 0))
                     (add32 (sigma0 (nth 14 wrev 0)) (nth 15 wrev 0)) in
      schedule n' (w :: wrev)
  end.

Definition round (st : list N) (kw : N * N) : list N :=
  match st with
  | [a; b; c; d; e; f; g; h] =>
      let t1 := add32 (add32 (add32 h (Sigma1 e)) (Ch e f g))
                      (add32 (fst kw) (snd kw)) in
      let t2 := add32 (Sigma0 a) (Maj a b c) in
      [add32 t1 t2; a; b; c; add32 d t1; e; f; g]
  | _ => st
  end.

Definition compress (h : list N) (block : bytes) : list N :=
  let w := rev (schedule 48 (rev (words 16 block))) in
  let st := fold_left round (combine K w) h in
  map (fun p => add32 (fst p) (snd p)) (combine h st).

Fixpoint blocks (n : nat) (h : list N) (b : bytes) : list N :=
  match n with
  | O => h
  | S n' => blocks n' (compress h (firstn 64 b)) (skipn 64 b)
  end.

(** [hashlib.sha256(msg).digest()]. *)
Definition digest (msg : bytes) : bytes :=
  let p := pad msg in
  flat_map (be_bytes 4) (blocks (Nat.div (List.length p) 64) H0 p).

Definition hexdigit (n : N) : N :=
  if n <? 10 then 48 + n else 87 + n.

(** [bytes.hex()]: two lowercase hexadecimal digits per octet. *)
Definition hex (b : bytes) : str :=
  flat_map (fun x => [hexdigit (x / 16); hexdigit (x mod 16)]) b.

(** [hashlib.sha256(msg).hexdigest()]. *)
Definition hexdigest (msg : bytes) : str := hex (digest msg).

End SHA256.

(** ** Python values: JSON results and response bodies *)

#[local] Set Warnings "-register-all".

(** A [dict] is an association list in insertion order, read by first
    match; a Python dict holds one binding per key. *)
Inductive pyvalue : Type :=
| PyNone
| PyBool (b : bool)
| PyInt (z : Z)
| PyFloat (binary64 : N)
| PyStr (s : str)
| PyList (l : list pyvalue)
| PyDict (d : list (str * pyvalue)).

Fixpoint lookup (k : str) (d : list (str * pyvalue)) : option pyvalue :=
  match d with
  | [] => None
  | (k', v) :: d' => if eqb k k' then Some v else lookup k d'
  end.

(** [v.get(k)]: the bound value or [None] on a dict; any other object has
    no attribute [get]. *)
Definition py_get (v : pyvalue) (k : str) : res pyvalue :=
  match v with
  | PyDict d =>
      Ok (match lookup k d with Some x => x | None => PyNone end)
  | _ =>
      Raise (Exception (lit "AttributeError")
               (lit "object has no attribute 'get'"))
  end.

(** [v is True]. *)
Definition is_True (v : pyvalue) : bool :=
  match v with
  | PyBool true => true
  | _ => false
  end.

(** ** EIP-191 ([eth_account.messages.encode_defunct]) *)

Record SignableMessage : Type := {
  version : bytes;
  header : bytes;
  body : bytes
}.

(** [encode_defunct(text=message)]: version byte [E], header
    [thereum Signed Message:\n<length>], body the UTF-8 octets. *)
Definition encode_defunct (text : str) : res SignableMessage :=
  match Utf8.encode text with
  | Ok b =>
      Ok {| version := lit "E";
            header := lit "thereum Signed Message:" ++ [10]
                      ++ decimal (N.of_nat (List.length b));
            body := b |}
  | Raise e => Raise e
  end.

(** ** The completion service ([openai.AsyncOpenAI]) *)

Record ChatRequest : Type := {
  model : str;
  messages : list (str * str);   (* role, content *)
  temperature : Q
}.

Record ChatMessage : Type := { content : option str }.
Record Choice : Type := { message : ChatMessage }.
Record ChatCompletion : Type := { choices : list Choice }.

(** ** Effects: call trace and exceptions *)

(** What a run records: entry into the two helper functions of the
    program, and every call that leaves the process. *)
Inductive event : Type :=
| Enter_verify_signature (wallet_address signature message : str)
| Enter_analyze_legal_document (text : str)
| Call_recover_message (m : SignableMessage) (signature : str)
| Call_chat_completions_create (api_key : str) (rq : ChatRequest).

(** A computation: the events it performed, in order, and its result. *)
Definition M (A : Type) : Type := (list event * res A)%type.

Definition trace {A} (m : M A) : list event := fst m.
Definition result {A} (m : M A) : res A := snd m.

Definition ret {A} (a : A) : M A := ([], Ok a).
Definition raise {A} (e : exn) : M A := ([], Raise e).
Definition lift {A} (r : res A) : M A := ([], r).
Definition emit (ev : event) : M unit := ([ev], Ok tt).

Definition bind {A B} (m : M A) (k : A -> M B) : M B :=
  match m with
  | (t, Ok a) => let (t', r) := k a in (t ++ t', r)
  | (t, Raise e) => (t, Raise e)
  end.

(** [try: m except Exception as e: h e]. *)
Definition try_except {A} (m : M A) (h : exn -> M A) : M A :=
  match m with
  | (t, Ok a) => (t, Ok a)
  | (t, Raise e) => let (t', r) := h e in (t ++ t', r)
  end.

Declare Scope py_scope.
Delimit Scope py_scope with py.
Notation "x <- m ;; k" := (bind m (fun x => k))
  (at level 100, m at next level, right associativity) : py_scope.
Notation "m ;; k" := (bind m (fun _ => k))
  (at level 100, right associativity) : py_scope.
Local Open Scope py_scope.

(** ** Collaborators outside the program *)

Record Externals : Type := {
  (** [str.lower()], the Unicode lower-casing of the interpreter. *)
  lower : str -> str;
  (** [os.getenv(name)]. *)
  getenv : str -> option str;
  (** [Account.recover_message(encoded, signature=signature)]: the
      recovered checksum address, or the exception it raises. *)
  recover_message : SignableMessage -> str -> res str;
  (** [AsyncOpenAI(api_key=key).chat.completions.create(...)], awaited:
      the completion, or the exception raised by the import, the client
      or the call. *)
  chat_completions_create : str -> ChatRequest -> res ChatCompletion;
  (** [json.loads(text)]: the parsed value or the decoder's exception. *)
  json_loads : str -> res pyvalue
}.

(** ** The program: ai-legal-core/main.py *)

(** [LEGAL_VALIDATORS_WHITELIST] (Hardhat's default account 0). *)
Definition LEGAL_VALIDATORS_WHITELIST : list str :=
  [ lit "0xf39Fd6e51aad88F6F4ce6aB8827279cffFb92266" ].

(** [class TokenizationRequest(BaseModel)]. *)
Record TokenizationRequest : Type := {
  wallet_address : str;
  signature : str;
  document_content : str
}.

Definition RWA_AUDITOR_SYSTEM_PROMPT : str :=
  lit "Eres un auditor legal especializado en Activos del Mundo Real (RWA) bajo el Modelo 4 de liquidez."
  ++ [10] ++ lit "Analiza el texto del contrato legal y responde " ++ [218]
  ++ lit "NICAMENTE con un JSON v" ++ [225]
  ++ lit "lido, sin markdown ni texto extra."
  ++ [10] ++ lit "Formato obligatorio: {" ++ [34] ++ lit "approved" ++ [34]
  ++ lit ": true|false, " ++ [34] ++ lit "risk_score" ++ [34] ++ lit ": n"
  ++ [250] ++ lit "mero del 1 al 10 si approved es true}"
  ++ [10] ++ lit "- approved: true solo si el documento es adecuado para tokenizaci"
  ++ [243] ++ lit "n (cl" ++ [225] ++ lit "usulas de redenci" ++ [243]
  ++ lit "n, colateral y cumplimiento normativo claros)."
  ++ [10] ++ lit "- risk_score: 1 = m" ++ [237] ++ lit "nimo riesgo, 10 = m"
  ++ [225] ++ lit "ximo riesgo. Solo incluir si approved es true.".

(** String constants of the source. *)
Definition OPENAI_API_KEY : str := lit "OPENAI_API_KEY".
Definition fence : str := lit "```".
Definition newline : N := 10.
Definition kw_redencion : str := lit "redenci" ++ [243] ++ lit "n".
Definition kw_colateral : str := lit "colateral".
Definition detail_403 : str :=
  lit "Wallet no autorizada en la whitelist de validadores legales".
Definition detail_401 : str :=
  lit "Firma inv" ++ [225]
  ++ lit "lida: no coincide con la wallet o el contenido del documento".
Definition k_approved : str := lit "approved".
Definition k_risk_score : str := lit "risk_score".
Definition k_error : str := lit "error".
Definition k_status : str := lit "status".
Definition k_audit_result : str := lit "audit_result".
Definition k_document_hash : str := lit "document_hash".
Definition k_signature_from_oracle : str := lit "signature_from_oracle".
Definition simulated_signature : str := lit "simulated_signature_0x123".

(** Lines 113-118: the clean-up of the service's text before it is parsed.
    [content.strip()]; then, only when the text starts with a fence, every
    line whose stripped form starts with a fence is dropped. *)
Definition strip_markdown (content : str) : str :=
  let content := strip content in
  if startswith content fence then
    let lines := split newline content in
    join newline
      (filter (fun l => negb (startswith (strip l) fence)) lines)
  else content.

(** [{"approved": False, "error": str(e)}]. *)
Definition rejection_of (e : exn) : pyvalue :=
  PyDict [ (k_approved, PyBool false); (k_error, PyStr (str_of_exn e)) ].

Section Program.

Context (X : Externals).

(** [def verify_signature(wallet_address, signature, message) -> bool]. *)
Definition verify_signature (wallet_address signature message : str)
  : M bool :=
  emit (Enter_verify_signature wallet_address signature message) ;;
  try_except
    (encoded <- lift (encode_defunct message) ;;
     emit (Call_recover_message encoded signature) ;;
     recovered_address <- lift (recover_message X encoded signature) ;;
     ret (eqb (lower X recovered_address) (lower X wallet_address)))
    (fun _ => ret false).

(** The request sent to the service (lines 103-110). *)
Definition chat_request (text : str) : ChatRequest :=
  {| model := lit "gpt-4";
     messages := [ (lit "system", RWA_AUDITOR_SYSTEM_PROMPT);
                   (lit "user", slice_to 12000 text) ];
     temperature := 2 # 10 |}.

(** [response.choices[0]]. *)
Definition first_choice (r : ChatCompletion) : res Choice :=
  match choices r with
  | c :: _ => Ok c
  | [] => Raise (Exception (lit "IndexError") (lit "list index out of range"))
  end.

(** [x or "{}"]. *)
Definition or_empty_object (c : option str) : str :=
  match c with
  | Some s => if truthy s then s else lit "{}"
  | None => lit "{}"
  end.

(** The body of the [try] block (lines 100-119). *)
Definition ai_analysis (api_key text : str) : M pyvalue :=
  emit (Call_chat_completions_create api_key (chat_request text)) ;;
  response <- lift (chat_completions_create X api_key (chat_request text)) ;;
  choice <- lift (first_choice response) ;;
  let content := or_empty_object (content (message choice)) in
  let content := strip_markdown content in
  lift (json_loads X content).

(** The simulated case (lines 125-128). *)
Definition rule_analysis (text : str) : pyvalue :=
  let text_lower := lower X text in
  if contains kw_redencion text_lower && contains kw_colateral text_lower
  then PyDict [ (k_approved, PyBool true); (k_risk_score, PyInt 1) ]
  else PyDict [ (k_approved, PyBool false) ].

(** [api_key and api_key.strip()], as a truth value. *)
Definition api_key_set (api_key : option str) : bool :=
  match api_key with
  | Some k => truthy k && truthy (strip k)
  | None => false
  end.

(** [async def analyze_legal_document(text) -> dict]. *)
Definition analyze_legal_document (text : str) : M pyvalue :=
  emit (Enter_analyze_legal_document text) ;;
  let api_key := getenv X OPENAI_API_KEY in
  match api_key with
  | Some key =>
      if truthy key && truthy (strip key) then
        try_except (ai_analysis key text)
                   (fun e => ret (rejection_of e))
      else ret (rule_analysis text)
  | None => ret (rule_analysis text)
  end.

(** [x in allowed_wallets]. *)
Definition set_mem (x : str) (s : list str) : bool := existsb (eqb x) s.

(** [async def audit_contract(body: TokenizationRequest) -> dict]. *)
Definition audit_contract (body : TokenizationRequest) : M pyvalue :=
  let allowed_wallets := map (lower X) LEGAL_VALIDATORS_WHITELIST in
  if negb (set_mem (lower X (wallet_address body)) allowed_wallets) then
    raise (HTTPException 403 detail_403)
  else
    ok <- verify_signature (wallet_address body) (signature body)
                           (document_content body) ;;
    if negb ok then raise (HTTPException 401 detail_401)
    else
      ai_result <- analyze_legal_document (document_content body) ;;
      approved <- lift (py_get ai_result k_approved) ;;
      if is_True approved then
        encoded <- lift (Utf8.encode (document_content body)) ;;
        let document_hash := SHA256.hexdigest encoded in
        ret (PyDict [ (k_status, PyStr (lit "success"));
                      (k_audit_result, ai_result);
                      (k_document_hash, PyStr document_hash);
                      (k_signature_from_oracle, PyStr simulated_signature) ])
      else
        ret (PyDict [ (k_status, PyStr (lit "rejected"));
                      (k_audit_result, ai_result) ]).

End Program.

(** ** Vocabulary of the statements *)

(** Events that belong to the document analyzer. *)
Definition analyzer_event (ev : event) : bool :=
  match ev with
  | Enter_analyze_legal_document _ => true
  | Call_chat_completions_create _ _ => true
  | _ => false
  end.

(** [needle] occurs in [hay]. *)
Definition substring (needle hay : str) : Prop :=
  exists a b, hay = a ++ needle ++ b.

(** The signer is on the whitelist, case-insensitively. *)
Definition whitelisted (X : Externals) (body : TokenizationRequest) : Prop :=
  In (lower X (wallet_address body)) (map (lower X) LEGAL_VALIDATORS_WHITELIST).

(** The verdict [verify_signature] gives on a request. *)
Definition signature_verdict (X : Externals) (body : TokenizationRequest)
  : res bool :=
  result (verify_signature X (wallet_address body) (signature body)
            (document_content body)).

(** The [status] entry of what [audit_contract] returned, if it returned. *)
Definition status_of (r : res pyvalue) : option pyvalue :=
  match r with
  | Ok (PyDict d) => lookup k_status d
  | _ => None
  end.

(** A character of a lowercase hexadecimal numeral. *)
Definition lower_hex_digit (c : N) : Prop :=
  (48 <= c <= 57) \/ (97 <= c <= 102).

(** The three ways the [try] block of the AI-backed analyzer can fail:
    the call (import, client, network, authentication) raises, the
    completion has no choice, or the cleaned text does not parse. *)
Definition backend_failure (X : Externals) (key text : str) (e : exn) : Prop :=
  chat_completions_create X key (chat_request text) = Raise e
  \/ (exists r, chat_completions_create X key (chat_request text) = Ok r
                /\ first_choice r = Raise e)
  \/ (exists r c, chat_completions_create X key (chat_request text) = Ok r
                  /\ first_choice r = Ok c
                  /\ json_loads X
                       (strip_markdown (or_empty_object (content (message c))))
                     = Raise e).

(** ** The fence clean-up as the specification words it *)

(** A line that is purely a code-fence delimiter: after stripping, a fence
    followed at most by an info word (letters and digits). *)
Definition is_alnum (c : N) : bool :=
  ((48 <=? c) && (c <=? 57)) || ((65 <=? c) && (c <=? 90))
  || ((97 <=? c) && (c <=? 122)).

Definition pure_fence_line (l : str) : bool :=
  let l := strip l in
  startswith l fence && forallb is_alnum (skipn 3 l).

(** "Strip any line that is purely a code-fence delimiter". *)
Definition strip_fence_lines_spec (content : str) : str :=
  join newline
    (filter (fun l => negb (pure_fence_line l)) (split newline content)).

(** ** Concrete collaborators, for running the program on examples *)

Module Demo.

(** [str.lower()] on Latin-1 text: A-Z and the accented capitals
    U+00C0-U+00DE (except the multiplication sign) move by 32. *)
Definition lower_latin1 (s : str) : str :=
  map (fun c =>
         if ((65 <=? c) && (c <=? 90))
            || ((192 <=? c) && (c <=? 222) && negb (c =? 215))
         then c + 32 else c) s.

Definition hardhat0 : str := lit "0xf39Fd6e51aad88F6F4ce6aB8827279cffFb92266".
Definition hardhat1 : str := lit "0x70997970C51812dc3A010C7d01b50e0d17dc79C8".

(** A stand-in for ECDSA recovery: account 0 "signs" a message with the
    digest of its header and body; any other [0x] string recovers to
    account 1; anything else is refused. *)
Definition sign0 (m : SignableMessage) : str :=
  lit "0x" ++ SHA256.hexdigest (header m ++ body m).

Definition recover (m : SignableMessage) (sig : str) : res str :=
  if eqb sig (sign0 m) then Ok hardhat0
  else if startswith sig (lit "0x") then Ok hardhat1
  else Raise (Exception (lit "ValueError") (lit "not a hex string")).

(** The signature account 0 gives for a text. *)
Definition signed (text : str) : str :=
  match encode_defunct text with
  | Ok m => sign0 m
  | Raise _ => []
  end.

Definition quoted (s : string) : str := [34] ++ lit s ++ [34].

Definition json_ok : str :=
  lit "{" ++ quoted "approved" ++ lit ": true, " ++ quoted "risk_score"
  ++ lit ": 3}".
Definition json_str_true : str :=
  lit "{" ++ quoted "approved" ++ lit ": " ++ quoted "true" ++ lit "}".
Definition json_one : str := lit "{" ++ quoted "approved" ++ lit ": 1}".

(** [json.loads] on the handful of texts the examples use. *)
Definition loads (s : str) : res pyvalue :=
  if eqb s json_ok then
    Ok (PyDict [ (k_approved, PyBool true); (k_risk_score, PyInt 3) ])
  else if eqb s json_str_true then
    Ok (PyDict [ (k_approved, PyStr (lit "true")) ])
  else if eqb s json_one then Ok (PyDict [ (k_approved, PyInt 1) ])
  else if eqb s (lit "{}") then Ok (PyDict [])
  else if eqb s (lit "[]") then Ok (PyList [])
  else Raise (Exception (lit "JSONDecodeError") (lit "Expecting value")).

Definition reply (text : str) : res ChatCompletion :=
  Ok {| choices := [ {| message := {| content := Some text |} |} ] |}.

(** No API key: the simulated analyzer. *)
Definition rules : Externals :=
  {| lower := lower_latin1;
     getenv := fun _ => None;
     recover_message := recover;
     chat_completions_create :=
       fun _ _ => Raise (Exception (lit "APIConnectionError") (lit "unreachable"));
     json_loads := loads |}.

(** An API key is set and the service answers [r] to every request. *)
Definition ai (r : res ChatCompletion) : Externals :=
  {| lower := lower_latin1;
     getenv := fun k => if eqb k OPENAI_API_KEY then Some (lit "sk-test") else None;
     recover_message := recover;
     chat_completions_create := fun _ _ => r;
     json_loads := loads |}.

(** The service times out. *)
Definition timeout_error : exn :=
  Exception (lit "APITimeoutError") (lit "Request timed out.").
Definition ai_timeout : Externals := ai (Raise timeout_error).

(** The service answers with an approval, with ["approved": "true"], and
    with a JSON array. *)
Definition ai_ok : Externals := ai (reply json_ok).
Definition ai_str_true : Externals := ai (reply json_str_true).
Definition ai_array : Externals := ai (reply (lit "[]")).

(** Two outputs of the service around the JSON object [{}]: prose, then
    a fenced block; and a single line that opens and closes the fence. *)
Definition prose_then_fence : str :=
  lit "Result:" ++ [10] ++ fence ++ [10] ++ lit "{}" ++ [10] ++ fence.
Definition fence_with_payload : str := fence ++ lit "json {}" ++ fence.

Definition request (w sig doc : str) : TokenizationRequest :=
  {| wallet_address := w; signature := sig; document_content := doc |}.

Definition scenario_A : str :=
  lit "This contract includes REDENCI" ++ [211]
  ++ lit "N and COLATERAL clauses.".

(** A text of 12,000 filler characters followed by scenario A. *)
Definition long_text : str := repeat 120 (N.to_nat 12000) ++ scenario_A.

(** Scenario A: whitelisted signer (in lower case), valid signature. *)
Definition req_A : TokenizationRequest :=
  request (lower_latin1 hardhat0) (signed scenario_A) scenario_A.

(** Scenario B: the text lacks both keywords. *)
Definition req_B : TokenizationRequest :=
  request hardhat0 (signed (lit "A plain lease.")) (lit "A plain lease.").

(** Scenario C: a signer that is not on the whitelist. *)
Definition req_C : TokenizationRequest :=
  request hardhat1 (signed scenario_A) scenario_A.

(** Scenario D: the signature was made for another text. *)
Definition req_D : TokenizationRequest :=
  request hardhat0 (signed (lit "A plain lease.")) scenario_A.

End Demo.

(** ** The liveness probe *)

(** [async def health() -> dict[str, str]] (lines 188-190). *)
Definition health : M pyvalue :=
  ret (PyDict [ (k_status, PyStr (lit "ok"));
                (lit "service", PyStr (lit "legal-oracle")) ]).

(** ** Further vocabulary *)

(** Steps 3 and 4 of [audit_contract] (lines 162-180) on their own: the
    analysis of the document and the assembly of the response.
    [audit_contract] is the two gates followed by this. *)
Definition analysis_and_response (X : Externals) (doc : str) : M pyvalue :=
  ai_result <- analyze_legal_document X doc ;;
  approved <- lift (py_get ai_result k_approved) ;;
  if is_True approved then
    encoded <- lift (Utf8.encode doc) ;;
    ret (PyDict [ (k_status, PyStr (lit "success"));
                  (k_audit_result, ai_result);
                  (k_document_hash, PyStr (SHA256.hexdigest encoded));
                  (k_signature_from_oracle, PyStr simulated_signature) ])
  else
    ret (PyDict [ (k_status, PyStr (lit "rejected"));
                  (k_audit_result, ai_result) ]).

(** Calls that leave the process. *)
Definition is_recover_call (ev : event) : bool :=
  match ev with
  | Call_recover_message _ _ => true
  | _ => false
  end.

Definition is_chat_call (ev : event) : bool :=
  match ev with
  | Call_chat_completions_create _ _ => true
  | _ => false
  end.

(** How many events of a kind a trace holds. *)
Definition count (p : event -> bool) (t : list event) : nat :=
  List.length (filter p t).

(** Every character is white space (the empty string included). *)
Definition blank (s : str) : bool := forallb isspace s.

(** No line of the text starts, once stripped, with a fence. *)
Definition fence_free (payload : str) : Prop :=
  Forall (fun l => startswith (strip l) fence = false)
    (split newline payload).

(** A request that differs from [body] in the wallet spelling only. *)
Definition with_wallet (body : TokenizationRequest) (w : str)
  : TokenizationRequest :=
  {| wallet_address := w;
     signature := signature body;
     document_content := document_content body |}.

(** More collaborators for examples: a service whose answer carries a
    [risk_score] outside 1..10 and a key the program does not know, and
    one whose answer has no content. *)
Module Demo2.

Definition json_wild : str :=
  lit "{" ++ Demo.quoted "approved" ++ lit ": true, "
  ++ Demo.quoted "risk_score" ++ lit ": 99, "
  ++ Demo.quoted "note" ++ lit ": null}".

Definition wild : pyvalue :=
  PyDict [ (k_approved, PyBool true); (k_risk_score, PyInt 99);
           (lit "note", PyNone) ].

Definition loads (s : str) : res pyvalue :=
  if eqb s json_wild then Ok wild else Demo.loads s.

Definition ai (key : str) (r : res ChatCompletion) : Externals :=
  {| lower := Demo.lower_latin1;
     getenv := fun k => if eqb k OPENAI_API_KEY then Some key else None;
     recover_message := Demo.recover;
     chat_completions_create := fun _ _ => r;
     json_loads := loads |}.

(** The answer wrapped in a fenced block, with a carriage return after the
    info word and a trailing newline. *)
Definition fenced_wild : str :=
  fence ++ lit "json" ++ [13] ++ [10] ++ json_wild ++ [10] ++ fence ++ [10].

Definition ai_wild : Externals := ai (lit "sk-test") (Demo.reply fenced_wild).

(** A completion whose message has no content. *)
Definition no_content : res ChatCompletion :=
  Ok {| choices := [ {| message := {| content := None |} |} ] |}.
Definition ai_silent : Externals := ai (lit "sk-test") no_content.

(** The key is set to white space only, and to a key between blanks. *)
Definition ai_blank_key : Externals := ai [32; 9; 10] (Demo.reply Demo.json_ok).
Definition padded_key : str := [32] ++ lit "sk-test" ++ [10].
Definition ai_padded_key : Externals := ai padded_key (Demo.reply Demo.json_ok).

(** A text with a lone surrogate, which UTF-8 cannot carry. *)
Definition unencodable : str := lit "clause " ++ [55357].
Definition req_unencodable : TokenizationRequest :=
  Demo.request Demo.hardhat0 (lit "0xabc") unencodable.

End Demo2.

(** * Properties *)

(** ** The library model on known values *)

Example strip_both_ends :
  strip ([32; 9] ++ lit "a b" ++ [10; 13; 160]) = lit "a b".
Proof. reflexivity. Qed.

Example split_keeps_empty_pieces :
  split newline (lit "a" ++ [10; 10] ++ lit "bc" ++ [10])
  = [lit "a"; []; lit "bc"; []].
Proof. reflexivity. Qed.

Example join_lines :
  join newline [lit "a"; []; lit "bc"] = lit "a" ++ [10; 10] ++ lit "bc".
Proof. reflexivity. Qed.

Example contains_inside : contains (lit "cd") (lit "abcde") = true.
Proof. reflexivity. Qed.

Example contains_absent : contains (lit "ce") (lit "abcde") = false.
Proof. reflexivity. Qed.

Example startswith_fence : startswith (lit "```json") fence = true.
Proof. reflexivity. Qed.

Example decimal_55 : decimal 55 = lit "55".
Proof. reflexivity. Qed.

Example or_empty_object_cases :
  or_empty_object None = lit "{}"
  /\ or_empty_object (Some []) = lit "{}"
  /\ or_empty_object (Some (lit "[1]")) = lit "[1]".
Proof. repeat split. Qed.

Example utf8_widths :
  Utf8.encode [65; 243; 8364; 128512]
  = Ok [65; 195; 179; 226; 130; 172; 240; 159; 152; 128].
Proof. reflexivity. Qed.

Example utf8_refuses_surrogate :
  Utf8.encode_opt [65; 55296] = None.
Proof. reflexivity. Qed.

Example encode_defunct_hello :
  encode_defunct (lit "hello")
  = Ok {| version := lit "E";
          header := lit "thereum Signed Message:" ++ [10] ++ lit "5";
          body := lit "hello" |}.
Proof. reflexivity. Qed.

Example round_constants_ends :
  List.length SHA256.K = 64%nat
  /\ hd 0 SHA256.K = 0x428a2f98 /\ last SHA256.K 0 = 0xc67178f2
  /\ hd 0 SHA256.H0 = 0x6a09e667 /\ last SHA256.H0 0 = 0x5be0cd19.
Proof. repeat split. Qed.

Example sha256_abc :
  SHA256.hexdigest (lit "abc")
  = lit "ba7816bf8f01cfea414140de5dae2223b00361a396177a9cb410ff61f20015ad".
Proof. vm_compute. reflexivity. Qed.

Example sha256_empty :
  SHA256.hexdigest []
  = lit "e3b0c44298fc1c149afbf4c8996fb92427ae41e4649b934ca495991b7852b855".
Proof. vm_compute. reflexivity. Qed.

Example sha256_four_blocks :
  SHA256.hexdigest (repeat 97 200)
  = lit "c2a908d98f5df987ade41b5fce213067efbcc21ef2240212a41e54b5e7c28ae5".
Proof. vm_compute. reflexivity. Qed.

Example lower_latin1_accent :
  Demo.lower_latin1 (lit "REDENCI" ++ [211] ++ lit "N") = kw_redencion.
Proof. reflexivity. Qed.

(** ** The scenarios of the specification *)

(** Scenario A: success, [risk_score] 1, the digest of the text. *)
Example scenario_A_succeeds :
  audit_contract Demo.rules Demo.req_A
  = ([Enter_verify_signature (wallet_address Demo.req_A)
        (signature Demo.req_A) Demo.scenario_A;
      Call_recover_message
        {| version := lit "E";
           header := lit "thereum Signed Message:" ++ [10] ++ lit "56";
           body := lit "This contract includes REDENCI" ++ [195; 147]
                   ++ lit "N and COLATERAL clauses." |}
        (signature Demo.req_A);
      Enter_analyze_legal_document Demo.scenario_A],
     Ok (PyDict
           [ (k_status, PyStr (lit "success"));
             (k_audit_result,
              PyDict [ (k_approved, PyBool true); (k_risk_score, PyInt 1) ]);
             (k_document_hash,
              PyStr (lit "387b52cc1bb532f5a75f818465cff39f7d3f7c43e4a973e6b3df949d3785cfc0"));
             (k_signature_from_oracle,
              PyStr (lit "simulated_signature_0x123")) ])).
Proof. vm_compute. reflexivity. Qed.

(** Scenario B: no keyword, rejected. *)
Example scenario_B_rejected :
  result (audit_contract Demo.rules Demo.req_B)
  = Ok (PyDict [ (k_status, PyStr (lit "rejected"));
                 (k_audit_result, PyDict [ (k_approved, PyBool false) ]) ]).
Proof. vm_compute. reflexivity. Qed.

(** Scenario C: not whitelisted, 403, nothing called. *)
Example scenario_C_forbidden :
  audit_contract Demo.rules Demo.req_C
  = ([], Raise (HTTPException 403 detail_403)).
Proof. vm_compute. reflexivity. Qed.

(** Scenario D: signature made for another text, 401, no analysis. *)
Example scenario_D_unauthenticated :
  audit_contract Demo.rules Demo.req_D
  = ([Enter_verify_signature Demo.hardhat0 (signature Demo.req_D)
        Demo.scenario_A;
      Call_recover_message
        {| version := lit "E";
           header := lit "thereum Signed Message:" ++ [10] ++ lit "56";
           body := lit "This contract includes REDENCI" ++ [195; 147]
                   ++ lit "N and COLATERAL clauses." |}
        (signature Demo.req_D)],
     Raise (HTTPException 401 detail_401)).
Proof. vm_compute. reflexivity. Qed.

(** Scenario E: the service times out, rejected with the error text. *)
Example scenario_E_backend_down :
  result (audit_contract Demo.ai_timeout Demo.req_A)
  = Ok (PyDict [ (k_status, PyStr (lit "rejected"));
                 (k_audit_result,
                  PyDict [ (k_approved, PyBool false);
                           (k_error, PyStr (lit "Request timed out.")) ]) ]).
Proof. vm_compute. reflexivity. Qed.

(** A fenced answer of the service is unwrapped and accepted. *)
Example fenced_answer_accepted :
  result (analyze_legal_document
            (Demo.ai (Demo.reply (lit "```json" ++ [10] ++ Demo.json_ok
                                  ++ [10] ++ fence ++ [10])))
            Demo.scenario_A)
  = Ok (PyDict [ (k_approved, PyBool true); (k_risk_score, PyInt 3) ]).
Proof. vm_compute. reflexivity. Qed.

(** The number 1 and a missing key are not the boolean [True]. *)
Example approved_one_rejected :
  status_of (result (audit_contract (Demo.ai (Demo.reply Demo.json_one))
                       Demo.req_A))
  = Some (PyStr (lit "rejected")).
Proof. vm_compute. reflexivity. Qed.

Example approved_missing_rejected :
  status_of (result (audit_contract (Demo.ai (Demo.reply (lit "{}")))
                       Demo.req_A))
  = Some (PyStr (lit "rejected")).
Proof. vm_compute. reflexivity. Qed.

(** ** Strings *)

Lemma eqb_eq (a b : str) : eqb a b = true <-> a = b.
Proof.
  revert b; induction a as [|c a IH]; intros [|d b]; simpl;
    try (split; [discriminate | discriminate]); try tauto.
  rewrite andb_true_iff, N.eqb_eq, IH.
  split; [intros [-> ->]; reflexivity | intros H; inversion H; auto].
Qed.

Lemma eqb_refl (a : str) : eqb a a = true.
Proof. apply eqb_eq; reflexivity. Qed.

Lemma startswith_iff (s p : str) :
  startswith s p = true <-> exists r, s = p ++ r.
Proof.
  revert s; induction p as [|c p IH]; intros s; simpl.
  - split; [intros _; exists s; reflexivity | reflexivity].
  - destruct s as [|d s].
    + split; [discriminate | intros [r H]; discriminate].
    + rewrite andb_true_iff, N.eqb_eq, IH.
      split.
      * intros [-> [r ->]]. exists r; reflexivity.
      * intros [r H]; inversion H; subst. split; [reflexivity | eauto].
Qed.

(** [needle in hay] holds exactly when [hay] splits around [needle]. *)
Lemma contains_iff (needle hay : str) :
  contains needle hay = true <-> exists a b, hay = a ++ needle ++ b.
Proof.
  induction hay as [|c hay IH]; simpl; rewrite orb_true_iff, startswith_iff.
  - split.
    + intros [[r H] | H]; [exists [], r; exact H | discriminate].
    + intros [a [b H]]. left.
      destruct a; [exists b; exact H | discriminate].
  - rewrite IH. split.
    + intros [[r H] | [a [b H]]].
      * exists [], r; exact H.
      * exists (c :: a), b; rewrite H; reflexivity.
    + intros [[|d a] [b H]].
      * left; exists b; exact H.
      * right; inversion H; subst. exists a, b; reflexivity.
Qed.

Lemma set_mem_iff (x : str) (s : list str) : set_mem x s = true <-> In x s.
Proof.
  unfold set_mem. rewrite existsb_exists. split.
  - intros [y [Hy E]]. apply eqb_eq in E; subst; exact Hy.
  - intros H; exists x; split; [exact H | apply eqb_refl].
Qed.

Lemma set_mem_false (x : str) (s : list str) :
  ~ In x s -> set_mem x s = false.
Proof.
  intros H. destruct (set_mem x s) eqn:E; [|reflexivity].
  apply set_mem_iff in E; contradiction.
Qed.

(** ** The monad *)

Lemma bind_ok {A B} (t : list event) (a : A) (k : A -> M B) :
  bind (t, Ok a) k = (t ++ trace (k a), result (k a)).
Proof. unfold bind, trace, result. destruct (k a); reflexivity. Qed.

Lemma bind_raise {A B} (t : list event) (e : exn) (k : A -> M B) :
  bind (t, Raise e) k = (t, Raise e).
Proof. reflexivity. Qed.

Lemma bind_result_ok {A B} (m : M A) (a : A) (k : A -> M B) :
  result m = Ok a ->
  bind m k = (trace m ++ trace (k a), result (k a)).
Proof. destruct m as [t r]; simpl; intros ->. apply bind_ok. Qed.

Lemma bind_result_raise {A B} (m : M A) (e : exn) (k : A -> M B) :
  result m = Raise e -> bind m k = (trace m, Raise e).
Proof. destruct m as [t r]; simpl; intros ->. reflexivity. Qed.

(** ** verify_signature *)

(** One run of [verify_signature], spelled out. *)
Lemma verify_signature_run X w s m :
  verify_signature X w s m =
  match encode_defunct m with
  | Ok enc =>
      ([Enter_verify_signature w s m; Call_recover_message enc s],
       Ok match recover_message X enc s with
          | Ok a => eqb (lower X a) (lower X w)
          | Raise _ => false
          end)
  | Raise _ => ([Enter_verify_signature w s m], Ok false)
  end.
Proof.
  unfold verify_signature, emit, lift, ret.
  destruct (encode_defunct m) as [enc|e]; simpl; [|reflexivity].
  destruct (recover_message X enc s); reflexivity.
Qed.

(** C5: [verify_signature] never raises.  On every input it returns a
    boolean, which is [True] exactly when the message can be EIP-191
    encoded, recovery succeeds, and the recovered address equals
    [wallet_address] once both are lower-cased; a message that cannot be
    encoded and a recovery that raises (malformed signature, wrong length)
    both give [False]. *)
Theorem C5_verify_signature_never_raises X w s m :
  exists b : bool,
    result (verify_signature X w s m) = Ok b
    /\ (b = true <->
        exists enc addr,
          encode_defunct m = Ok enc
          /\ recover_message X enc s = Ok addr
          /\ lower X addr = lower X w)
    /\ (forall e, encode_defunct m = Raise e -> b = false)
    /\ (forall enc e, encode_defunct m = Ok enc ->
                      recover_message X enc s = Raise e -> b = false).
Proof.
  rewrite verify_signature_run.
  destruct (encode_defunct m) as [enc|e0] eqn:Henc.
  - destruct (recover_message X enc s) as [a|e1] eqn:Hrec.
    + exists (eqb (lower X a) (lower X w)). repeat split.
      * intros H. exists enc, a. apply eqb_eq in H. auto.
      * intros (enc' & a' & E1 & E2 & E3).
        inversion E1; subst enc'. rewrite Hrec in E2. inversion E2; subst a'.
        apply eqb_eq; exact E3.
      * discriminate.
      * intros enc' e E1 E2. inversion E1; subst enc'.
        rewrite Hrec in E2; discriminate.
    + exists false. repeat split; try discriminate.
      intros (enc' & a' & E1 & E2 & _).
      inversion E1; subst enc'. rewrite Hrec in E2; discriminate.
  - exists false. repeat split; try discriminate.
    intros (enc' & a' & E1 & _). discriminate.
Qed.

(** ** audit_contract: the two gates *)

(** C1: a signer that is not on the whitelist (compared lower-cased) gets
    the 403 [HTTPException], whatever the signature, and the run performs
    no event at all: neither [verify_signature] nor
    [analyze_legal_document] is entered, and nothing is called outside. *)
Theorem C1_unauthorized_short_circuits X body :
  ~ whitelisted X body ->
  result (audit_contract X body) = Raise (HTTPException 403 detail_403)
  /\ trace (audit_contract X body) = [].
Proof.
  unfold whitelisted, audit_contract. intros H.
  rewrite (set_mem_false _ _ H). simpl. split; reflexivity.
Qed.

Lemma C1_witness :
  ~ whitelisted Demo.rules Demo.req_C
  /\ result (audit_contract Demo.rules Demo.req_C)
     = Raise (HTTPException 403 detail_403)
  /\ trace (audit_contract Demo.rules Demo.req_C) = [].
Proof.
  assert (H : ~ whitelisted Demo.rules Demo.req_C).
  { intros [H | []]. vm_compute in H. discriminate. }
  split; [exact H|].
  exact (C1_unauthorized_short_circuits Demo.rules Demo.req_C H).
Defined.

(** Past the whitelist, the pipeline continues with the signature gate. *)
Lemma audit_contract_whitelisted X body :
  whitelisted X body ->
  audit_contract X body =
  (ok <- verify_signature X (wallet_address body) (signature body)
           (document_content body) ;;
   if negb ok then raise (HTTPException 401 detail_401)
   else
     ai_result <- analyze_legal_document X (document_content body) ;;
     approved <- lift (py_get ai_result k_approved) ;;
     if is_True approved then
       encoded <- lift (Utf8.encode (document_content body)) ;;
       ret (PyDict [ (k_status, PyStr (lit "success"));
                     (k_audit_result, ai_result);
                     (k_document_hash, PyStr (SHA256.hexdigest encoded));
                     (k_signature_from_oracle, PyStr simulated_signature) ])
     else
       ret (PyDict [ (k_status, PyStr (lit "rejected"));
                     (k_audit_result, ai_result) ]))%py.
Proof.
  unfold whitelisted, audit_contract. intros H.
  apply set_mem_iff in H. rewrite H. reflexivity.
Qed.

(** C2: a whitelisted signer whose signature does not verify against
    (wallet_address, document_content) gets the 401 [HTTPException]; the
    run consists of the verifier's events only, so the analyzer is not
    entered and the completion service is not called. *)
Theorem C2_invalid_signature_rejected X body :
  whitelisted X body ->
  signature_verdict X body = Ok false ->
  result (audit_contract X body) = Raise (HTTPException 401 detail_401)
  /\ trace (audit_contract X body)
     = trace (verify_signature X (wallet_address body) (signature body)
                (document_content body))
  /\ forall ev, In ev (trace (audit_contract X body)) ->
               analyzer_event ev = false.
Proof.
  unfold signature_verdict. intros Hw Hs.
  rewrite (audit_contract_whitelisted _ _ Hw).
  rewrite (bind_result_ok _ _ _ Hs). simpl.
  rewrite app_nil_r. repeat split.
  rewrite verify_signature_run.
  destruct (encode_defunct (document_content body)); simpl;
    intros ev Hev; repeat (destruct Hev as [<- | Hev]; [reflexivity|]);
    destruct Hev.
Qed.

Lemma C2_witness :
  whitelisted Demo.rules Demo.req_D
  /\ signature_verdict Demo.rules Demo.req_D = Ok false
  /\ result (audit_contract Demo.rules Demo.req_D)
     = Raise (HTTPException 401 detail_401).
Proof.
  assert (Hw : whitelisted Demo.rules Demo.req_D).
  { left. vm_compute. reflexivity. }
  assert (Hs : signature_verdict Demo.rules Demo.req_D = Ok false).
  { vm_compute. reflexivity. }
  split; [exact Hw | split; [exact Hs |]].
  exact (proj1 (C2_invalid_signature_rejected Demo.rules Demo.req_D Hw Hs)).
Defined.

(** ** The digest is 64 lowercase hexadecimal characters *)

Lemma hexdigit_lower (n : N) : n < 16 -> lower_hex_digit (SHA256.hexdigit n).
Proof.
  unfold SHA256.hexdigit, lower_hex_digit. intros H.
  destruct (N.ltb_spec n 10); lia.
Qed.

Lemma hex_lower (b : bytes) :
  Forall (fun x => x < 256) b -> Forall lower_hex_digit (SHA256.hex b).
Proof.
  induction 1 as [|x b Hx _ IH]; simpl; [constructor|].
  constructor; [|constructor; [|exact IH]]; apply hexdigit_lower.
  - apply N.Div0.div_lt_upper_bound. exact Hx.
  - apply N.mod_lt. discriminate.
Qed.

Lemma hex_length (b : bytes) :
  List.length (SHA256.hex b) = (2 * List.length b)%nat.
Proof. induction b as [|x b IH]; simpl; [reflexivity | rewrite IH; lia]. Qed.

Lemma be_bytes_bound (n : nat) (x : N) :
  Forall (fun y => y < 256) (SHA256.be_bytes n x).
Proof.
  induction n as [|n IH]; simpl; constructor; [|exact IH].
  change 255 with (N.ones 8). rewrite N.land_ones.
  apply N.mod_lt. discriminate.
Qed.

Lemma be_bytes_length (n : nat) (x : N) :
  List.length (SHA256.be_bytes n x) = n.
Proof. induction n as [|n IH]; simpl; [reflexivity | rewrite IH; reflexivity]. Qed.

Lemma round_length (st : list N) (kw : N * N) :
  List.length (SHA256.round st kw) = List.length st.
Proof.
  unfold SHA256.round.
  destruct st as [|a [|b [|c [|d [|e [|f [|g [|h [|i st]]]]]]]]]; reflexivity.
Qed.

Lemma rounds_length (l : list (N * N)) (st : list N) :
  List.length (fold_left SHA256.round l st) = List.length st.
Proof.
  revert st; induction l as [|kw l IH]; intros st; simpl; [reflexivity|].
  rewrite IH. apply round_length.
Qed.

Lemma compress_length (h : list N) (block : bytes) :
  List.length (SHA256.compress h block) = List.length h.
Proof.
  unfold SHA256.compress.
  rewrite length_map, length_combine, rounds_length. apply Nat.min_id.
Qed.

Lemma blocks_length (n : nat) (h : list N) (b : bytes) :
  List.length (SHA256.blocks n h b) = List.length h.
Proof.
  revert h b; induction n as [|n IH]; intros h b; simpl; [reflexivity|].
  rewrite IH. apply compress_length.
Qed.

Lemma flat_be_bytes (ws : list N) :
  List.length (flat_map (SHA256.be_bytes 4) ws) = (4 * List.length ws)%nat
  /\ Forall (fun y => y < 256) (flat_map (SHA256.be_bytes 4) ws).
Proof.
  induction ws as [|w ws [IHl IHb]]; [split; [reflexivity | constructor]|].
  split.
  - cbn [flat_map]. rewrite length_app, be_bytes_length, IHl.
    cbn [List.length]. lia.
  - cbn [flat_map]. apply Forall_app. split; [apply be_bytes_bound | exact IHb].
Qed.

(** [hexdigest] always yields 64 characters among [0-9a-f]. *)
Lemma hexdigest_shape (msg : bytes) :
  List.length (SHA256.hexdigest msg) = 64%nat
  /\ Forall lower_hex_digit (SHA256.hexdigest msg).
Proof.
  unfold SHA256.hexdigest, SHA256.digest.
  destruct (flat_be_bytes
              (SHA256.blocks (Nat.div (List.length (SHA256.pad msg)) 64)
                 SHA256.H0 (SHA256.pad msg))) as [Hl Hb].
  split.
  - rewrite hex_length, Hl, blocks_length. reflexivity.
  - apply hex_lower. exact Hb.
Qed.

(** ** analyze_legal_document *)

(** Without a usable API key the analyzer is the keyword rule. *)
Lemma analyze_rule_based X text :
  api_key_set (getenv X OPENAI_API_KEY) = false ->
  analyze_legal_document X text
  = ([Enter_analyze_legal_document text], Ok (rule_analysis X text)).
Proof.
  unfold api_key_set, analyze_legal_document.
  destruct (getenv X OPENAI_API_KEY) as [key|]; [|reflexivity].
  intros ->. reflexivity.
Qed.

(** With an API key it is the guarded call to the service. *)
Lemma analyze_ai_backed X text :
  api_key_set (getenv X OPENAI_API_KEY) = true ->
  exists key,
    getenv X OPENAI_API_KEY = Some key
    /\ analyze_legal_document X text
       = (emit (Enter_analyze_legal_document text) ;;
          try_except (ai_analysis X key text)
            (fun e => ret (rejection_of e)))%py.
Proof.
  unfold api_key_set, analyze_legal_document.
  destruct (getenv X OPENAI_API_KEY) as [key|]; [|discriminate].
  intros ->. exists key. split; reflexivity.
Qed.

(** The analyzer returns on every input: no exception leaves it. *)
Lemma analyze_returns X text :
  exists v, result (analyze_legal_document X text) = Ok v.
Proof.
  destruct (api_key_set (getenv X OPENAI_API_KEY)) eqn:E.
  - destruct (analyze_ai_backed X text E) as (key & _ & ->).
    unfold emit, bind, try_except.
    destruct (ai_analysis X key text) as [t [v|e]]; simpl; eauto.
  - rewrite (analyze_rule_based X text E). simpl; eauto.
Qed.

Lemma rule_analysis_cases X text :
  rule_analysis X text
  = if contains kw_redencion (lower X text)
       && contains kw_colateral (lower X text)
    then PyDict [ (k_approved, PyBool true); (k_risk_score, PyInt 1) ]
    else PyDict [ (k_approved, PyBool false) ].
Proof. reflexivity. Qed.

(** C3: with no API key configured, the analyzer approves exactly when the
    lower-cased text contains both [redención] and [colateral] as
    substrings, wherever and in whichever order they occur; an approval
    carries [risk_score = 1], a refusal carries [approved = False] and no
    [risk_score]. *)
Theorem C3_rule_based_analyzer X text :
  api_key_set (getenv X OPENAI_API_KEY) = false ->
  exists d,
    result (analyze_legal_document X text) = Ok (PyDict d)
    /\ (lookup k_approved d = Some (PyBool true) <->
        substring kw_redencion (lower X text)
        /\ substring kw_colateral (lower X text))
    /\ (lookup k_approved d = Some (PyBool true) ->
        lookup k_risk_score d = Some (PyInt 1))
    /\ (lookup k_approved d <> Some (PyBool true) ->
        lookup k_approved d = Some (PyBool false)
        /\ lookup k_risk_score d = None).
Proof.
  intros Hkey. rewrite (analyze_rule_based X text Hkey).
  unfold result; cbn [snd].
  rewrite rule_analysis_cases. unfold substring.
  destruct (contains kw_redencion (lower X text)
            && contains kw_colateral (lower X text)) eqn:E.
  - apply andb_true_iff in E. destruct E as [E1 E2].
    apply contains_iff in E1, E2.
    eexists; split; [reflexivity|].
    split; [split; [intros _; split; assumption | reflexivity]|].
    split; [reflexivity|].
    intros H; exfalso; apply H; reflexivity.
  - eexists; split; [reflexivity|].
    split; [split; [discriminate|]|].
    + intros [E1 E2]. apply contains_iff in E1, E2.
      rewrite E1, E2 in E. discriminate.
    + split; [discriminate|]. intros _; split; reflexivity.
Qed.

Lemma C3_witness :
  api_key_set (getenv Demo.rules OPENAI_API_KEY) = false
  /\ exists d,
      result (analyze_legal_document Demo.rules Demo.scenario_A) = Ok (PyDict d)
      /\ lookup k_approved d = Some (PyBool true)
      /\ lookup k_risk_score d = Some (PyInt 1).
Proof.
  split; [reflexivity|].
  destruct (C3_rule_based_analyzer Demo.rules Demo.scenario_A eq_refl)
    as (d & Hd & Hiff & Hrisk & _).
  exists d. split; [exact Hd|].
  assert (Ha : lookup k_approved d = Some (PyBool true)).
  { apply Hiff. split; apply contains_iff; vm_compute; reflexivity. }
  split; [exact Ha | exact (Hrisk Ha)].
Defined.

(** ** audit_contract: outcome assembly *)

(** A signature that verifies was made over an encodable text. *)
Lemma verified_text_encodes X body :
  signature_verdict X body = Ok true ->
  exists octets, Utf8.encode (document_content body) = Ok octets.
Proof.
  unfold signature_verdict. rewrite verify_signature_run.
  unfold encode_defunct.
  destruct (Utf8.encode (document_content body)) as [o|e]; [eauto|].
  cbn [result snd]. discriminate.
Qed.

(** What [audit_contract] returns once both gates are passed. *)
Lemma audit_contract_past_gates X body v :
  whitelisted X body ->
  signature_verdict X body = Ok true ->
  result (analyze_legal_document X (document_content body)) = Ok v ->
  result (audit_contract X body) =
  match py_get v k_approved with
  | Ok approved =>
      if is_True approved then
        match Utf8.encode (document_content body) with
        | Ok encoded =>
            Ok (PyDict [ (k_status, PyStr (lit "success"));
                         (k_audit_result, v);
                         (k_document_hash, PyStr (SHA256.hexdigest encoded));
                         (k_signature_from_oracle, PyStr simulated_signature) ])
        | Raise e => Raise e
        end
      else Ok (PyDict [ (k_status, PyStr (lit "rejected"));
                        (k_audit_result, v) ])
  | Raise e => Raise e
  end.
Proof.
  unfold signature_verdict. intros Hw Hs Hv.
  rewrite (audit_contract_whitelisted _ _ Hw).
  rewrite (bind_result_ok _ _ _ Hs). cbv beta. cbn [negb result snd].
  rewrite (bind_result_ok _ _ _ Hv). cbn [result snd]. unfold lift.
  destruct (py_get v k_approved) as [a|e]; [|reflexivity].
  rewrite bind_ok. cbn [result snd].
  destruct (is_True a); [|reflexivity].
  destruct (Utf8.encode (document_content body)) as [o|e]; reflexivity.
Qed.

Lemma py_get_True_dict v :
  py_get v k_approved = Ok (PyBool true) <->
  exists d, v = PyDict d /\ lookup k_approved d = Some (PyBool true).
Proof.
  split.
  - destruct v; try discriminate. simpl.
    destruct (lookup k_approved d) as [x|] eqn:E; intros H; inversion H; subst.
    + exists d; auto.
  - intros (d & -> & H). simpl. rewrite H. reflexivity.
Qed.

(** C4: once both gates are passed, an analysis whose [approved] is [True]
    gives the response with status [success], the analysis itself,
    [document_hash] the SHA-256 digest of the UTF-8 octets of
    [document_content] written as 64 lowercase hexadecimal characters, and
    the fixed string [simulated_signature_0x123]; an analysis whose
    [approved] is anything else gives the response with status [rejected]
    and the analysis only, without [document_hash] and without
    [signature_from_oracle]. *)
Theorem C4_outcome_assembly X body v :
  whitelisted X body ->
  signature_verdict X body = Ok true ->
  result (analyze_legal_document X (document_content body)) = Ok v ->
  (py_get v k_approved = Ok (PyBool true) ->
   exists octets,
     Utf8.encode (document_content body) = Ok octets
     /\ result (audit_contract X body)
        = Ok (PyDict [ (k_status, PyStr (lit "success"));
                       (k_audit_result, v);
                       (k_document_hash, PyStr (SHA256.hexdigest octets));
                       (k_signature_from_oracle,
                        PyStr (lit "simulated_signature_0x123")) ])
     /\ List.length (SHA256.hexdigest octets) = 64%nat
     /\ Forall lower_hex_digit (SHA256.hexdigest octets))
  /\ (forall a, py_get v k_approved = Ok a -> a <> PyBool true ->
      exists d,
        result (audit_contract X body) = Ok (PyDict d)
        /\ d = [ (k_status, PyStr (lit "rejected")); (k_audit_result, v) ]
        /\ lookup k_document_hash d = None
        /\ lookup k_signature_from_oracle d = None).
Proof.
  intros Hw Hs Hv.
  pose proof (audit_contract_past_gates X body v Hw Hs Hv) as Hrun.
  split.
  - intros Ha. rewrite Ha in Hrun. cbn [is_True] in Hrun.
    destruct (verified_text_encodes X body Hs) as [octets Ho].
    rewrite Ho in Hrun. exists octets.
    split; [exact Ho|]. split; [exact Hrun|]. apply hexdigest_shape.
  - intros a Ha Hne. rewrite Ha in Hrun.
    assert (Hf : is_True a = false).
    { destruct a as [|[|]| | | | |]; try reflexivity. contradiction Hne; reflexivity. }
    rewrite Hf in Hrun. eexists. split; [exact Hrun|].
    split; [reflexivity|]. split; reflexivity.
Qed.

Lemma C4_witness :
  whitelisted Demo.rules Demo.req_A
  /\ signature_verdict Demo.rules Demo.req_A = Ok true
  /\ exists octets,
      Utf8.encode Demo.scenario_A = Ok octets
      /\ result (audit_contract Demo.rules Demo.req_A)
         = Ok (PyDict
                 [ (k_status, PyStr (lit "success"));
                   (k_audit_result,
                    PyDict [ (k_approved, PyBool true);
                             (k_risk_score, PyInt 1) ]);
                   (k_document_hash, PyStr (SHA256.hexdigest octets));
                   (k_signature_from_oracle,
                    PyStr (lit "simulated_signature_0x123")) ]).
Proof.
  assert (Hw : whitelisted Demo.rules Demo.req_A).
  { left. vm_compute. reflexivity. }
  assert (Hs : signature_verdict Demo.rules Demo.req_A = Ok true).
  { vm_compute. reflexivity. }
  split; [exact Hw | split; [exact Hs |]].
  destruct (C4_outcome_assembly Demo.rules Demo.req_A
              (PyDict [ (k_approved, PyBool true); (k_risk_score, PyInt 1) ])
              Hw Hs) as [Happ _].
  { vm_compute. reflexivity. }
  destruct (Happ eq_refl) as (octets & Ho & Hr & _).
  exists octets. split; [exact Ho | exact Hr].
Defined.

(** C10: past both gates, the status is [success] exactly when the
    analyzer's result is a dict that binds [approved] to the boolean
    [True]; a dict without [approved], or binding it to anything else (the
    string ["true"], the number 1, ...), gives status [rejected]. *)
Theorem C10_success_needs_literal_True X body v :
  whitelisted X body ->
  signature_verdict X body = Ok true ->
  result (analyze_legal_document X (document_content body)) = Ok v ->
  (status_of (result (audit_contract X body)) = Some (PyStr (lit "success"))
   <-> exists d, v = PyDict d /\ lookup k_approved d = Some (PyBool true))
  /\ (forall d, v = PyDict d ->
      lookup k_approved d <> Some (PyBool true) ->
      status_of (result (audit_contract X body))
      = Some (PyStr (lit "rejected"))).
Proof.
  intros Hw Hs Hv.
  pose proof (audit_contract_past_gates X body v Hw Hs Hv) as Hrun.
  destruct (verified_text_encodes X body Hs) as [octets Ho].
  rewrite Ho in Hrun.
  split; [split|].
  - intros Hst. apply py_get_True_dict.
    destruct (py_get v k_approved) as [a|e].
    + destruct a as [|[|]| | | | |]; try reflexivity;
        rewrite Hrun in Hst; cbn [is_True status_of] in Hst;
        vm_compute in Hst; discriminate.
    + rewrite Hrun in Hst. discriminate.
  - intros H. apply py_get_True_dict in H. rewrite H in Hrun.
    rewrite Hrun. reflexivity.
  - intros d -> Hne. cbn [py_get] in Hrun.
    assert (Hf : is_True (match lookup k_approved d with
                          | Some x => x
                          | None => PyNone
                          end) = false).
    { destruct (lookup k_approved d) as [[|[|]| | | | |]|]; try reflexivity.
      contradiction Hne; reflexivity. }
    rewrite Hf in Hrun. rewrite Hrun. reflexivity.
Qed.

Lemma C10_witness :
  whitelisted Demo.ai_str_true Demo.req_A
  /\ signature_verdict Demo.ai_str_true Demo.req_A = Ok true
  /\ result (analyze_legal_document Demo.ai_str_true Demo.scenario_A)
     = Ok (PyDict [ (k_approved, PyStr (lit "true")) ])
  /\ status_of (result (audit_contract Demo.ai_str_true Demo.req_A))
     = Some (PyStr (lit "rejected")).
Proof.
  assert (Hw : whitelisted Demo.ai_str_true Demo.req_A).
  { left. vm_compute. reflexivity. }
  assert (Hs : signature_verdict Demo.ai_str_true Demo.req_A = Ok true).
  { vm_compute. reflexivity. }
  assert (Hv : result (analyze_legal_document Demo.ai_str_true
                         (document_content Demo.req_A))
               = Ok (PyDict [ (k_approved, PyStr (lit "true")) ])).
  { vm_compute. reflexivity. }
  split; [exact Hw | split; [exact Hs | split; [exact Hv |]]].
  apply (proj2 (C10_success_needs_literal_True _ _ _ Hw Hs Hv)
           [ (k_approved, PyStr (lit "true")) ] eq_refl).
  vm_compute. discriminate.
Defined.

(** ** The AI-backed analyzer *)

Lemma ai_analysis_trace X key text :
  trace (ai_analysis X key text)
  = [Call_chat_completions_create key (chat_request text)].
Proof.
  unfold ai_analysis, emit, lift. rewrite bind_ok. cbn [trace fst].
  destruct (chat_completions_create X key (chat_request text)) as [r|e];
    [|reflexivity].
  rewrite bind_ok. cbn [trace fst].
  destruct (first_choice r) as [c|e]; [|reflexivity].
  rewrite bind_ok. reflexivity.
Qed.

Lemma ai_analysis_result X key text :
  result (ai_analysis X key text) =
  match chat_completions_create X key (chat_request text) with
  | Ok r =>
      match first_choice r with
      | Ok c =>
          json_loads X (strip_markdown (or_empty_object (content (message c))))
      | Raise e => Raise e
      end
  | Raise e => Raise e
  end.
Proof.
  unfold ai_analysis, emit, lift. rewrite bind_ok. cbn [result snd].
  destruct (chat_completions_create X key (chat_request text)) as [r|e];
    [|reflexivity].
  rewrite bind_ok. cbn [result snd].
  destruct (first_choice r) as [c|e]; [|reflexivity].
  rewrite bind_ok. reflexivity.
Qed.

Lemma ai_analysis_failure X key text e :
  backend_failure X key text e -> result (ai_analysis X key text) = Raise e.
Proof.
  rewrite ai_analysis_result.
  intros [H | [(r & H1 & H2) | (r & c & H1 & H2 & H3)]].
  - rewrite H. reflexivity.
  - rewrite H1, H2. reflexivity.
  - rewrite H1, H2. exact H3.
Qed.

(** One run of the AI-backed analyzer: a single call to the service, and
    its failure turned into a refusal. *)
Lemma analyze_ai_run X key text :
  getenv X OPENAI_API_KEY = Some key ->
  api_key_set (Some key) = true ->
  analyze_legal_document X text
  = ([Enter_analyze_legal_document text;
      Call_chat_completions_create key (chat_request text)],
     Ok match result (ai_analysis X key text) with
        | Ok v => v
        | Raise e => rejection_of e
        end).
Proof.
  unfold analyze_legal_document, api_key_set. intros -> ->.
  pose proof (ai_analysis_trace X key text) as Ht.
  unfold emit, try_except, ret.
  destruct (ai_analysis X key text) as [t [v|e]]; cbn [trace fst] in Ht;
    subst t; reflexivity.
Qed.

(** C6: when the AI-backed analyzer's [try] block fails - the call raises
    (network, authentication), the completion has no choice, or the text
    does not parse as JSON - [analyze_legal_document] returns
    [{"approved": False, "error": str(e)}] instead of raising, and a
    request past both gates gets the response with status [rejected]. *)
Theorem C6_backend_failure_is_rejection X body key e :
  getenv X OPENAI_API_KEY = Some key ->
  api_key_set (Some key) = true ->
  backend_failure X key (document_content body) e ->
  result (analyze_legal_document X (document_content body))
  = Ok (PyDict [ (k_approved, PyBool false);
                 (k_error, PyStr (str_of_exn e)) ])
  /\ (whitelisted X body ->
      signature_verdict X body = Ok true ->
      result (audit_contract X body)
      = Ok (PyDict [ (k_status, PyStr (lit "rejected"));
                     (k_audit_result,
                      PyDict [ (k_approved, PyBool false);
                               (k_error, PyStr (str_of_exn e)) ]) ])).
Proof.
  intros Hk Hset Hfail.
  assert (Hv : result (analyze_legal_document X (document_content body))
               = Ok (rejection_of e)).
  { rewrite (analyze_ai_run X key _ Hk Hset).
    rewrite (ai_analysis_failure X key _ e Hfail). reflexivity. }
  split; [exact Hv|].
  intros Hw Hs.
  rewrite (audit_contract_past_gates X body _ Hw Hs Hv). reflexivity.
Qed.

Lemma C6_witness :
  getenv Demo.ai_timeout OPENAI_API_KEY = Some (lit "sk-test")
  /\ backend_failure Demo.ai_timeout (lit "sk-test") Demo.scenario_A
       Demo.timeout_error
  /\ result (analyze_legal_document Demo.ai_timeout Demo.scenario_A)
     = Ok (PyDict [ (k_approved, PyBool false);
                    (k_error, PyStr (lit "Request timed out.")) ])
  /\ result (audit_contract Demo.ai_timeout Demo.req_A)
     = Ok (PyDict [ (k_status, PyStr (lit "rejected"));
                    (k_audit_result,
                     PyDict [ (k_approved, PyBool false);
                              (k_error, PyStr (lit "Request timed out.")) ]) ]).
Proof.
  assert (Hk : getenv Demo.ai_timeout OPENAI_API_KEY = Some (lit "sk-test")).
  { vm_compute. reflexivity. }
  assert (Hf : backend_failure Demo.ai_timeout (lit "sk-test")
                 (document_content Demo.req_A) Demo.timeout_error).
  { left. reflexivity. }
  assert (Hw : whitelisted Demo.ai_timeout Demo.req_A).
  { left. vm_compute. reflexivity. }
  assert (Hs : signature_verdict Demo.ai_timeout Demo.req_A = Ok true).
  { vm_compute. reflexivity. }
  destruct (C6_backend_failure_is_rejection Demo.ai_timeout Demo.req_A
              (lit "sk-test") Demo.timeout_error Hk eq_refl Hf) as [Hv Hr].
  split; [exact Hk | split; [exact Hf | split; [exact Hv | exact (Hr Hw Hs)]]].
Defined.

Lemma slice_to_idempotent (n : N) (s : str) :
  slice_to n (slice_to n s) = slice_to n s.
Proof. unfold slice_to. rewrite firstn_firstn, Nat.min_id. reflexivity. Qed.

Lemma chat_request_truncated (text : str) :
  chat_request (slice_to 12000 text) = chat_request text.
Proof. unfold chat_request. rewrite slice_to_idempotent. reflexivity. Qed.

(** C9: the AI-backed analyzer makes one call to the service, whose user
    message is the first 12,000 characters of the text; the text is a
    prefix-extension of what is sent, and the analyzer's result for a text
    is its result for that prefix, so length alone never causes a
    refusal. *)
Theorem C9_input_truncated X text :
  api_key_set (getenv X OPENAI_API_KEY) = true ->
  exists key,
    getenv X OPENAI_API_KEY = Some key
    /\ trace (analyze_legal_document X text)
       = [Enter_analyze_legal_document text;
          Call_chat_completions_create key (chat_request text)]
    /\ messages (chat_request text)
       = [ (lit "system", RWA_AUDITOR_SYSTEM_PROMPT);
           (lit "user", slice_to 12000 text) ]
    /\ (exists rest, text = slice_to 12000 text ++ rest)
    /\ List.length (slice_to 12000 text)
       = Nat.min (N.to_nat 12000) (List.length text)
    /\ result (analyze_legal_document X text)
       = result (analyze_legal_document X (slice_to 12000 text)).
Proof.
  intros Hset.
  destruct (getenv X OPENAI_API_KEY) as [key|] eqn:Hk; [|discriminate].
  exists key. split; [reflexivity|].
  rewrite !(analyze_ai_run X key _ Hk Hset).
  split; [reflexivity|]. split; [reflexivity|].
  split.
  { exists (skipn (N.to_nat 12000) text). unfold slice_to.
    symmetry. apply firstn_skipn. }
  split; [apply length_firstn|].
  cbn [result snd].
  rewrite !ai_analysis_result, chat_request_truncated. reflexivity.
Qed.

Lemma C9_witness :
  api_key_set (getenv Demo.ai_ok OPENAI_API_KEY) = true
  /\ List.length Demo.long_text = N.to_nat 12055
  /\ trace (analyze_legal_document Demo.ai_ok Demo.long_text)
     = [Enter_analyze_legal_document Demo.long_text;
        Call_chat_completions_create (lit "sk-test")
          {| model := lit "gpt-4";
             messages := [ (lit "system", RWA_AUDITOR_SYSTEM_PROMPT);
                           (lit "user", repeat 120 (N.to_nat 12000)) ];
             temperature := 2 # 10 |}]
  /\ result (analyze_legal_document Demo.ai_ok Demo.long_text)
     = Ok (PyDict [ (k_approved, PyBool true); (k_risk_score, PyInt 3) ]).
Proof.
  assert (Hset : api_key_set (getenv Demo.ai_ok OPENAI_API_KEY) = true).
  { vm_compute. reflexivity. }
  destruct (C9_input_truncated Demo.ai_ok Demo.long_text Hset)
    as (key & Hk & Ht & _ & _ & _ & Hr).
  assert (key = lit "sk-test") as ->.
  { vm_compute in Hk. inversion Hk. reflexivity. }
  split; [exact Hset|]. split; [vm_compute; reflexivity|].
  split.
  - rewrite Ht. vm_compute. reflexivity.
  - rewrite Hr. vm_compute. reflexivity.
Defined.

(** ** Lines: [split] and [join] *)

Lemma split_nonempty (sep : N) (s : str) : split sep s <> [].
Proof.
  destruct s as [|c s]; simpl; [discriminate|].
  destruct (c =? sep); [discriminate|].
  destruct (split sep s); discriminate.
Qed.

(** Joining the pieces gives the text back. *)
Lemma join_split (sep : N) (s : str) : join sep (split sep s) = s.
Proof.
  induction s as [|c s IH]; [reflexivity|].
  cbn [split]. pose proof (split_nonempty sep s) as Hne.
  destruct (N.eqb_spec c sep) as [->|Hc].
  - cbn [join]. destruct (split sep s) as [|l ls]; [contradiction|].
    cbn [app]. rewrite IH. reflexivity.
  - destruct (split sep s) as [|l ls]; [contradiction|].
    cbn [join] in *. destruct ls; cbn [app]; rewrite IH; reflexivity.
Qed.

(** No piece contains the separator. *)
Lemma split_pieces (sep : N) (s : str) :
  Forall (fun l => ~ In sep l) (split sep s).
Proof.
  induction s as [|c s IH]; cbn [split].
  - constructor; [intros [] | constructor].
  - destruct (N.eqb_spec c sep) as [->|Hc].
    + constructor; [intros [] | exact IH].
    + destruct (split sep s) as [|l ls].
      * constructor; [|constructor]. intros [H | []]. congruence.
      * inversion IH; subst. constructor; [|assumption].
        intros [H | H]; [congruence | contradiction].
Qed.

Lemma split_app (sep : N) (l r : str) :
  ~ In sep l -> split sep (l ++ sep :: r) = l :: split sep r.
Proof.
  induction l as [|c l IH]; intros Hl; cbn [app split].
  - rewrite N.eqb_refl. reflexivity.
  - destruct (N.eqb_spec c sep) as [->|Hc].
    + exfalso; apply Hl; left; reflexivity.
    + rewrite IH; [reflexivity|]. intros H; apply Hl; right; exact H.
Qed.

Lemma split_single (sep : N) (l : str) : ~ In sep l -> split sep l = [l].
Proof.
  induction l as [|c l IH]; intros Hl; cbn [split]; [reflexivity|].
  destruct (N.eqb_spec c sep) as [->|Hc].
  - exfalso; apply Hl; left; reflexivity.
  - rewrite IH; [reflexivity|]. intros H; apply Hl; right; exact H.
Qed.

(** Splitting a joined, non-empty list of separator-free pieces gives the
    pieces back. *)
Lemma split_join (sep : N) (ls : list str) :
  ls <> [] -> Forall (fun l => ~ In sep l) ls ->
  split sep (join sep ls) = ls.
Proof.
  induction ls as [|l ls IH]; intros Hne Hall; [contradiction|].
  inversion Hall as [|? ? Hl Hls]; subst.
  destruct ls as [|l' ls].
  - cbn [join]. apply split_single; exact Hl.
  - change (join sep (l :: l' :: ls)) with (l ++ sep :: join sep (l' :: ls)).
    rewrite split_app by exact Hl.
    rewrite IH; [reflexivity | discriminate | exact Hls].
Qed.

Lemma Forall_filter {A} (P : A -> Prop) (f : A -> bool) (l : list A) :
  Forall P l -> Forall P (filter f l).
Proof.
  induction 1 as [|x l Hx _ IH]; simpl; [constructor|].
  destruct (f x); [constructor; assumption | assumption].
Qed.

(** ** The fence clean-up *)

(** C7, as the code has it: the service's text is first stripped of
    surrounding whitespace.  If it then does not start with a fence,
    nothing more is removed, fence lines included.  If it starts with a
    fence, every line whose stripped form starts with a fence is dropped,
    whatever follows the fence on that line, and the remaining lines are
    kept unchanged and in order. *)
Theorem C7_fence_cleanup (content : str) :
  let c := strip content in
  let kept :=
    filter (fun l => negb (startswith (strip l) fence)) (split newline c) in
  (startswith c fence = false -> strip_markdown content = c)
  /\ (startswith c fence = true ->
      strip_markdown content = join newline kept
      /\ (forall l, In l kept <->
                    In l (split newline c)
                    /\ startswith (strip l) fence = false)
      /\ (kept <> [] -> split newline (strip_markdown content) = kept)).
Proof.
  intros c kept. unfold strip_markdown. fold c. split.
  - intros ->. reflexivity.
  - intros ->. fold kept. split; [reflexivity|]. split.
    + intros l. unfold kept. rewrite filter_In, negb_true_iff. reflexivity.
    + intros Hne. apply split_join; [exact Hne|].
      apply Forall_filter, split_pieces.
Qed.

(** C7 as worded fails both ways: a line that is nothing but a
    fence stays when the text opens with prose, and a line that opens with
    a fence is dropped together with the JSON it carries. *)
Lemma C7_counterexample :
  pure_fence_line fence = true
  /\ strip_markdown Demo.prose_then_fence = Demo.prose_then_fence
  /\ In fence (split newline (strip_markdown Demo.prose_then_fence))
  /\ strip_fence_lines_spec Demo.prose_then_fence
     = lit "Result:" ++ [10] ++ lit "{}"
  /\ pure_fence_line Demo.fence_with_payload = false
  /\ strip_markdown Demo.fence_with_payload = []
  /\ strip_fence_lines_spec Demo.fence_with_payload = Demo.fence_with_payload.
Proof.
  repeat split; try (vm_compute; reflexivity).
  vm_compute. right. left. reflexivity.
Qed.

(** ** audit_contract: what it raises *)

Lemma verify_signature_returns X w s m :
  exists b : bool, result (verify_signature X w s m) = Ok b.
Proof.
  rewrite verify_signature_run.
  destruct (encode_defunct m); cbn [result snd]; eauto.
Qed.

Lemma rule_analysis_is_dict X text : exists d, rule_analysis X text = PyDict d.
Proof.
  rewrite rule_analysis_cases.
  destruct (contains kw_redencion (lower X text)
            && contains kw_colateral (lower X text)); eauto.
Qed.

(** C8, as the code has it: the unauthorized failure is the
    [HTTPException] with status 403 and detail "Wallet no autorizada en la
    whitelist de validadores legales"; the invalid-signature failure is the
    one with status 401 and detail "Firma invalida: no coincide con la
    wallet o el contenido del documento" (with an accented a).  Whenever
    the analyzer's result is a dict - always so without an API key - no
    other exception leaves [audit_contract]. *)
Theorem C8_error_boundary X body :
  (~ whitelisted X body ->
   result (audit_contract X body)
   = Raise (HTTPException 403
              (lit "Wallet no autorizada en la whitelist de validadores legales")))
  /\ (whitelisted X body ->
      signature_verdict X body = Ok false ->
      result (audit_contract X body)
      = Raise (HTTPException 401
                 (lit "Firma inv" ++ [225]
                  ++ lit "lida: no coincide con la wallet o el contenido del documento")))
  /\ (forall e,
        result (audit_contract X body) = Raise e ->
        (forall v,
            result (analyze_legal_document X (document_content body)) = Ok v ->
            exists d, v = PyDict d) ->
        e = HTTPException 403 detail_403 \/ e = HTTPException 401 detail_401)
  /\ (api_key_set (getenv X OPENAI_API_KEY) = false ->
      forall e,
        result (audit_contract X body) = Raise e ->
        e = HTTPException 403 detail_403 \/ e = HTTPException 401 detail_401).
Proof.
  assert (H403 : ~ whitelisted X body ->
                 result (audit_contract X body)
                 = Raise (HTTPException 403 detail_403)).
  { unfold whitelisted, audit_contract. intros H.
    rewrite (set_mem_false _ _ H). reflexivity. }
  assert (H401 : whitelisted X body ->
                 signature_verdict X body = Ok false ->
                 result (audit_contract X body)
                 = Raise (HTTPException 401 detail_401)).
  { unfold signature_verdict. intros Hw Hs.
    rewrite (audit_contract_whitelisted _ _ Hw).
    rewrite (bind_result_ok _ _ _ Hs). reflexivity. }
  assert (Hdict : forall e,
             result (audit_contract X body) = Raise e ->
             (forall v,
                 result (analyze_legal_document X (document_content body))
                 = Ok v -> exists d, v = PyDict d) ->
             e = HTTPException 403 detail_403
             \/ e = HTTPException 401 detail_401).
  { intros e He Hshape.
    destruct (set_mem (lower X (wallet_address body))
                (map (lower X) LEGAL_VALIDATORS_WHITELIST)) eqn:Hm.
    - apply set_mem_iff in Hm. fold (whitelisted X body) in Hm.
      destruct (verify_signature_returns X (wallet_address body)
                  (signature body) (document_content body)) as [b Hb].
      fold (signature_verdict X body) in Hb.
      destruct b.
      + exfalso.
        destruct (analyze_returns X (document_content body)) as [v Hv].
        destruct (Hshape v Hv) as [d ->].
        rewrite (audit_contract_past_gates X body _ Hm Hb Hv) in He.
        destruct (verified_text_encodes X body Hb) as [o Ho].
        rewrite Ho in He. cbn [py_get] in He.
        destruct (is_True _) in He; discriminate.
      + right. rewrite (H401 Hm Hb) in He. inversion He; reflexivity.
    - left. rewrite H403 in He; [inversion He; reflexivity|].
      intros Hw. apply set_mem_iff in Hw. unfold whitelisted in Hw.
      congruence. }
  split; [exact H403 | split; [exact H401 | split; [exact Hdict |]]].
  intros Hkey e He. apply (Hdict e He).
  intros v. rewrite (analyze_rule_based X _ Hkey). cbn [result snd].
  intros Hv. inversion Hv. apply rule_analysis_is_dict.
Qed.

Lemma C8_witness :
  whitelisted Demo.rules Demo.req_D
  /\ signature_verdict Demo.rules Demo.req_D = Ok false
  /\ result (audit_contract Demo.rules Demo.req_D)
     = Raise (HTTPException 401 detail_401)
  /\ ~ whitelisted Demo.rules Demo.req_C
  /\ result (audit_contract Demo.rules Demo.req_C)
     = Raise (HTTPException 403 detail_403).
Proof.
  assert (Hw : whitelisted Demo.rules Demo.req_D).
  { left. vm_compute. reflexivity. }
  assert (Hs : signature_verdict Demo.rules Demo.req_D = Ok false).
  { vm_compute. reflexivity. }
  assert (Hn : ~ whitelisted Demo.rules Demo.req_C).
  { intros [H | []]. vm_compute in H. discriminate. }
  split; [exact Hw | split; [exact Hs | split; [| split; [exact Hn |]]]].
  - exact (proj1 (proj2 (C8_error_boundary Demo.rules Demo.req_D)) Hw Hs).
  - exact (proj1 (C8_error_boundary Demo.rules Demo.req_C) Hn).
Defined.

(** C8 as worded fails: the detail of the 403 is not the quoted
    English text (nor is the 401's), and with an API key set a service
    answer that is valid JSON but not an object makes [audit_contract]
    raise an [AttributeError], which is neither of the two. *)
Lemma C8_counterexample :
  result (audit_contract Demo.rules Demo.req_C)
  = Raise (HTTPException 403 detail_403)
  /\ detail_403 <> lit "wallet not authorized"
  /\ result (audit_contract Demo.rules Demo.req_D)
     = Raise (HTTPException 401 detail_401)
  /\ detail_401 <> lit "signature does not match wallet or content"
  /\ whitelisted Demo.ai_array Demo.req_A
  /\ signature_verdict Demo.ai_array Demo.req_A = Ok true
  /\ result (analyze_legal_document Demo.ai_array Demo.scenario_A)
     = Ok (PyList [])
  /\ result (audit_contract Demo.ai_array Demo.req_A)
     = Raise (Exception (lit "AttributeError")
                (lit "object has no attribute 'get'")).
Proof.
  repeat split; try (vm_compute; reflexivity);
    try (vm_compute; discriminate).
  left. vm_compute. reflexivity.
Qed.

(** * Further properties of the pipeline *)

(** ** How a run of audit_contract decomposes *)

Lemma audit_contract_gates X body :
  audit_contract X body =
  if negb (set_mem (lower X (wallet_address body))
             (map (lower X) LEGAL_VALIDATORS_WHITELIST))
  then raise (HTTPException 403 detail_403)
  else (ok <- verify_signature X (wallet_address body) (signature body)
                (document_content body) ;;
        if negb ok then raise (HTTPException 401 detail_401)
        else analysis_and_response X (document_content body))%py.
Proof. reflexivity. Qed.

Lemma whitelisted_dec X body : whitelisted X body \/ ~ whitelisted X body.
Proof.
  unfold whitelisted.
  destruct (set_mem (lower X (wallet_address body))
              (map (lower X) LEGAL_VALIDATORS_WHITELIST)) eqn:E.
  - left. apply set_mem_iff; exact E.
  - right. intros H. apply set_mem_iff in H. congruence.
Qed.

(** The three ways a run can go. *)
Lemma audit_contract_run X body :
  (~ whitelisted X body
   /\ audit_contract X body = ([], Raise (HTTPException 403 detail_403)))
  \/ (whitelisted X body
      /\ signature_verdict X body = Ok false
      /\ audit_contract X body
         = (trace (verify_signature X (wallet_address body) (signature body)
                     (document_content body)),
            Raise (HTTPException 401 detail_401)))
  \/ (whitelisted X body
      /\ signature_verdict X body = Ok true
      /\ audit_contract X body
         = (trace (verify_signature X (wallet_address body) (signature body)
                     (document_content body))
            ++ trace (analysis_and_response X (document_content body)),
            result (analysis_and_response X (document_content body)))).
Proof.
  rewrite audit_contract_gates.
  destruct (whitelisted_dec X body) as [Hw | Hn].
  - right. pose proof Hw as Hm. apply set_mem_iff in Hm. rewrite Hm.
    cbn [negb].
    destruct (verify_signature_returns X (wallet_address body)
                (signature body) (document_content body)) as [b Hb].
    rewrite (bind_result_ok _ _ _ Hb).
    destruct b; cbn [negb].
    + right. repeat split; assumption.
    + left. split; [exact Hw|]. split; [exact Hb|].
      unfold raise. cbn [trace result fst snd]. rewrite app_nil_r.
      reflexivity.
  - left. split; [exact Hn|]. rewrite (set_mem_false _ _ Hn). reflexivity.
Qed.

Lemma analysis_and_response_trace X doc :
  trace (analysis_and_response X doc) = trace (analyze_legal_document X doc).
Proof.
  unfold analysis_and_response.
  destruct (analyze_returns X doc) as [v Hv].
  rewrite (bind_result_ok _ _ _ Hv). cbn [trace fst].
  unfold lift. destruct (py_get v k_approved) as [a|e].
  - rewrite bind_ok. destruct (is_True a).
    + destruct (Utf8.encode doc) as [o|e]; cbn; rewrite app_nil_r; reflexivity.
    + cbn. rewrite app_nil_r. reflexivity.
  - cbn. rewrite app_nil_r. reflexivity.
Qed.

Lemma analysis_and_response_result X doc v :
  result (analyze_legal_document X doc) = Ok v ->
  result (analysis_and_response X doc) =
  match py_get v k_approved with
  | Ok approved =>
      if is_True approved then
        match Utf8.encode doc with
        | Ok encoded =>
            Ok (PyDict [ (k_status, PyStr (lit "success"));
                         (k_audit_result, v);
                         (k_document_hash, PyStr (SHA256.hexdigest encoded));
                         (k_signature_from_oracle, PyStr simulated_signature) ])
        | Raise e => Raise e
        end
      else Ok (PyDict [ (k_status, PyStr (lit "rejected"));
                        (k_audit_result, v) ])
  | Raise e => Raise e
  end.
Proof.
  intros Hv. unfold analysis_and_response.
  rewrite (bind_result_ok _ _ _ Hv). cbn [result snd]. unfold lift.
  destruct (py_get v k_approved) as [a|e]; [|reflexivity].
  rewrite bind_ok. cbn [result snd].
  destruct (is_True a); [|reflexivity].
  destruct (Utf8.encode doc) as [o|e]; reflexivity.
Qed.

(** The events of the verifier and of the analyzer. *)
Lemma verify_signature_trace X w s m :
  trace (verify_signature X w s m) = [Enter_verify_signature w s m]
  \/ exists enc,
      encode_defunct m = Ok enc
      /\ trace (verify_signature X w s m)
         = [Enter_verify_signature w s m; Call_recover_message enc s].
Proof.
  rewrite verify_signature_run.
  destruct (encode_defunct m) as [enc|e]; [right; exists enc | left]; auto.
Qed.

Lemma analyze_trace X text :
  (api_key_set (getenv X OPENAI_API_KEY) = false
   /\ trace (analyze_legal_document X text)
      = [Enter_analyze_legal_document text])
  \/ exists key,
      getenv X OPENAI_API_KEY = Some key
      /\ api_key_set (Some key) = true
      /\ trace (analyze_legal_document X text)
         = [Enter_analyze_legal_document text;
            Call_chat_completions_create key (chat_request text)].
Proof.
  destruct (api_key_set (getenv X OPENAI_API_KEY)) eqn:E.
  - right. destruct (getenv X OPENAI_API_KEY) as [key|] eqn:Hk;
      [|discriminate].
    exists key. split; [reflexivity|]. split; [exact E|].
    rewrite (analyze_ai_run X key text Hk E). reflexivity.
  - left. split; [reflexivity|].
    rewrite (analyze_rule_based X text E). reflexivity.
Qed.

(** ** What a run does and does not do *)

(** X1: [audit_contract] returns a response body (of either status) only
    to a whitelisted signer whose signature verified, and only after both
    the verifier and the analyzer were entered. *)
Theorem X1_response_only_past_gates X body r :
  result (audit_contract X body) = Ok r ->
  whitelisted X body
  /\ signature_verdict X body = Ok true
  /\ In (Enter_verify_signature (wallet_address body) (signature body)
           (document_content body))
        (trace (audit_contract X body))
  /\ In (Enter_analyze_legal_document (document_content body))
        (trace (audit_contract X body)).
Proof.
  intros Hr.
  destruct (audit_contract_run X body)
    as [[_ E] | [(_ & _ & E) | (Hw & Hs & E)]];
    rewrite E in Hr |- *; cbn [result trace fst snd] in *; try discriminate.
  split; [exact Hw|]. split; [exact Hs|].
  rewrite analysis_and_response_trace. split; apply in_or_app.
  - left.
    destruct (verify_signature_trace X (wallet_address body) (signature body)
                (document_content body)) as [-> | (enc & _ & ->)];
      left; reflexivity.
  - right.
    destruct (analyze_trace X (document_content body))
      as [(_ & ->) | (key & _ & _ & ->)]; left; reflexivity.
Qed.

Lemma X1_witness :
  result (audit_contract Demo.rules Demo.req_B)
  = Ok (PyDict [ (k_status, PyStr (lit "rejected"));
                 (k_audit_result, PyDict [ (k_approved, PyBool false) ]) ])
  /\ whitelisted Demo.rules Demo.req_B
  /\ signature_verdict Demo.rules Demo.req_B = Ok true.
Proof.
  assert (Hr : result (audit_contract Demo.rules Demo.req_B)
               = Ok (PyDict [ (k_status, PyStr (lit "rejected"));
                              (k_audit_result,
                               PyDict [ (k_approved, PyBool false) ]) ])).
  { vm_compute. reflexivity. }
  split; [exact Hr|].
  destruct (X1_response_only_past_gates Demo.rules Demo.req_B _ Hr)
    as (Hw & Hs & _).
  split; [exact Hw | exact Hs].
Defined.

(** X2: the analyzer is entered, or the completion service called, exactly
    when the signer is whitelisted and the signature verified. *)
Theorem X2_analysis_iff_both_gates X body :
  (exists ev, In ev (trace (audit_contract X body))
              /\ analyzer_event ev = true)
  <-> whitelisted X body /\ signature_verdict X body = Ok true.
Proof.
  assert (Hv : forall ev,
             In ev (trace (verify_signature X (wallet_address body)
                             (signature body) (document_content body))) ->
             analyzer_event ev = false).
  { intros ev.
    destruct (verify_signature_trace X (wallet_address body) (signature body)
                (document_content body)) as [-> | (enc & _ & ->)];
      intros Hev; repeat (destruct Hev as [<- | Hev]; [reflexivity|]);
      destruct Hev. }
  destruct (audit_contract_run X body)
    as [[Hn E] | [(Hw & Hs & E) | (Hw & Hs & E)]];
    rewrite E; cbn [trace fst].
  - split; [intros (ev & [] & _) | intros [Hw _]; contradiction].
  - split.
    + intros (ev & Hev & Ha). rewrite (Hv ev Hev) in Ha. discriminate.
    + intros [_ Hs']. rewrite Hs in Hs'. discriminate.
  - split; [intros _; split; assumption|]. intros _.
    exists (Enter_analyze_legal_document (document_content body)).
    split; [|reflexivity].
    apply in_or_app. right. rewrite analysis_and_response_trace.
    destruct (analyze_trace X (document_content body))
      as [(_ & ->) | (key & _ & _ & ->)]; left; reflexivity.
Qed.

(** X3: one request makes at most one signature recovery and at most one
    call to the completion service, and records at most four events: there
    is no retry anywhere in the pipeline. *)
Theorem X3_no_retries X body :
  (count is_recover_call (trace (audit_contract X body)) <= 1)%nat
  /\ (count is_chat_call (trace (audit_contract X body)) <= 1)%nat
  /\ (List.length (trace (audit_contract X body)) <= 4)%nat.
Proof.
  unfold count.
  destruct (audit_contract_run X body)
    as [[_ E] | [(_ & _ & E) | (_ & _ & E)]];
    rewrite E; cbn [trace fst]; try rewrite analysis_and_response_trace;
    try (destruct (analyze_trace X (document_content body))
          as [(_ & ->) | (key & _ & _ & ->)]);
    try (destruct (verify_signature_trace X (wallet_address body)
                     (signature body) (document_content body))
          as [-> | (enc & _ & ->)]);
    cbn; repeat split; lia.
Qed.

(** X4: without a usable API key no request ever reaches the completion
    service. *)
Theorem X4_rule_mode_stays_local X body :
  api_key_set (getenv X OPENAI_API_KEY) = false ->
  count is_chat_call (trace (audit_contract X body)) = 0%nat.
Proof.
  intros Hkey. unfold count.
  destruct (audit_contract_run X body)
    as [[_ E] | [(_ & _ & E) | (_ & _ & E)]];
    rewrite E; cbn [trace fst]; try rewrite analysis_and_response_trace;
    try rewrite (analyze_rule_based X _ Hkey);
    try (destruct (verify_signature_trace X (wallet_address body)
                     (signature body) (document_content body))
          as [-> | (enc & _ & ->)]);
    reflexivity.
Qed.

Lemma X4_witness :
  api_key_set (getenv Demo.rules OPENAI_API_KEY) = false
  /\ count is_chat_call (trace (audit_contract Demo.rules Demo.req_A)) = 0%nat.
Proof.
  split; [reflexivity|].
  exact (X4_rule_mode_stays_local Demo.rules Demo.req_A eq_refl).
Defined.

(** ** White space *)

Lemma lstrip_blank (ws s : str) :
  blank ws = true -> lstrip (ws ++ s) = lstrip s.
Proof.
  unfold blank. induction ws as [|c ws IH]; cbn [forallb app lstrip];
    [reflexivity|].
  intros H. apply andb_true_iff in H. destruct H as [Hc Hws].
  rewrite Hc. apply IH; exact Hws.
Qed.

Lemma lstrip_keeps (c : N) (s : str) :
  isspace c = false -> lstrip (c :: s) = c :: s.
Proof. intros H. cbn [lstrip]. rewrite H. reflexivity. Qed.

Lemma lstrip_nil (s : str) : lstrip s = [] <-> blank s = true.
Proof.
  unfold blank. induction s as [|c s IH]; cbn [lstrip forallb];
    [tauto|].
  destruct (isspace c); cbn [andb]; [exact IH|].
  split; discriminate.
Qed.

Lemma lstrip_idempotent (s : str) : lstrip (lstrip s) = lstrip s.
Proof.
  induction s as [|c s IH]; [reflexivity|]. cbn [lstrip].
  destruct (isspace c) eqn:E; [exact IH|]. apply lstrip_keeps; exact E.
Qed.

Lemma lstrip_upto (a b : str) (d : N) :
  isspace d = false -> exists u, lstrip (a ++ d :: b) = u ++ d :: b.
Proof.
  intros Hd. induction a as [|c a [u IH]]; cbn [app].
  - exists []. apply lstrip_keeps; exact Hd.
  - cbn [lstrip]. destruct (isspace c).
    + exists u; exact IH.
    + exists (c :: a); reflexivity.
Qed.

Lemma blank_rev (s : str) : blank (rev s) = blank s.
Proof.
  unfold blank. induction s as [|c s IH]; [reflexivity|].
  cbn [rev forallb]. rewrite forallb_app, IH. cbn [forallb].
  rewrite andb_true_r. apply andb_comm.
Qed.

Lemma rev_nil {A} (l : list A) : rev l = [] -> l = [].
Proof.
  intros H. rewrite <- (rev_involutive l), H. reflexivity.
Qed.

(** [s.strip()] is empty exactly when [s] is white space only. *)
Lemma strip_nil (s : str) : strip s = [] <-> blank s = true.
Proof.
  unfold strip, rstrip. split.
  - intros H. apply rev_nil, lstrip_nil in H.
    rewrite blank_rev in H. apply lstrip_nil in H.
    rewrite lstrip_idempotent in H. apply lstrip_nil; exact H.
  - intros H. apply lstrip_nil in H. rewrite H. reflexivity.
Qed.

(** Stripping removes the blanks around a text that starts and ends with
    a non-blank character, and nothing else. *)
Lemma strip_core (ws1 ws2 mid : str) (c d : N) :
  blank ws1 = true -> blank ws2 = true ->
  isspace c = false -> isspace d = false ->
  strip (ws1 ++ (c :: mid ++ [d]) ++ ws2) = c :: mid ++ [d].
Proof.
  intros H1 H2 Hc Hd. unfold strip, rstrip.
  rewrite (lstrip_blank _ _ H1).
  change ((c :: mid ++ [d]) ++ ws2) with (c :: (mid ++ [d]) ++ ws2).
  rewrite (lstrip_keeps _ _ Hc).
  change (c :: (mid ++ [d]) ++ ws2) with ((c :: mid ++ [d]) ++ ws2).
  rewrite rev_app_distr.
  rewrite lstrip_blank by (rewrite blank_rev; exact H2).
  change (c :: mid ++ [d]) with ((c :: mid) ++ [d]).
  rewrite rev_app_distr. cbn [rev app].
  rewrite (lstrip_keeps _ _ Hd).
  change (d :: rev mid ++ [c]) with ([d] ++ rev (c :: mid)).
  rewrite rev_app_distr, rev_involutive. reflexivity.
Qed.

(** Stripping on the right keeps everything up to a non-blank. *)
Lemma rstrip_upto (s t : str) (d : N) :
  isspace d = false -> exists t', rstrip (s ++ d :: t) = s ++ d :: t'.
Proof.
  intros Hd. unfold rstrip.
  rewrite rev_app_distr. cbn [rev]. rewrite <- app_assoc. cbn [app].
  destruct (lstrip_upto (rev t) (rev s) d Hd) as [u ->].
  exists (rev u).
  rewrite rev_app_distr. cbn [rev]. rewrite rev_involutive.
  rewrite <- app_assoc. reflexivity.
Qed.

Lemma api_key_set_blank (key : str) :
  api_key_set (Some key) = negb (blank key).
Proof.
  unfold api_key_set.
  destruct (blank key) eqn:E; cbn [negb].
  - apply strip_nil in E. rewrite E. apply andb_false_r.
  - destruct (strip key) eqn:Es.
    + apply strip_nil in Es. congruence.
    + destruct key; [discriminate E | reflexivity].
Qed.

(** X5: an [OPENAI_API_KEY] that is empty or white space only selects the
    keyword rule, as an unset one does; any other value selects the
    service, and the client receives the key as it is in the environment,
    surrounding white space included. *)
Theorem X5_blank_key_selects_rule X key text :
  getenv X OPENAI_API_KEY = Some key ->
  (blank key = true ->
   analyze_legal_document X text
   = ([Enter_analyze_legal_document text], Ok (rule_analysis X text)))
  /\ (blank key = false ->
      trace (analyze_legal_document X text)
      = [Enter_analyze_legal_document text;
         Call_chat_completions_create key (chat_request text)]).
Proof.
  intros Hk. split; intros Hb.
  - apply analyze_rule_based. rewrite Hk, api_key_set_blank, Hb. reflexivity.
  - rewrite (analyze_ai_run X key text Hk); [reflexivity|].
    rewrite api_key_set_blank, Hb. reflexivity.
Qed.

Lemma X5_witness :
  getenv Demo2.ai_padded_key OPENAI_API_KEY = Some Demo2.padded_key
  /\ trace (analyze_legal_document Demo2.ai_padded_key Demo.scenario_A)
     = [Enter_analyze_legal_document Demo.scenario_A;
        Call_chat_completions_create ([32] ++ lit "sk-test" ++ [10])
          (chat_request Demo.scenario_A)]
  /\ getenv Demo2.ai_blank_key OPENAI_API_KEY = Some [32; 9; 10]
  /\ result (analyze_legal_document Demo2.ai_blank_key Demo.scenario_A)
     = Ok (PyDict [ (k_approved, PyBool true); (k_risk_score, PyInt 1) ]).
Proof.
  assert (H1 : getenv Demo2.ai_padded_key OPENAI_API_KEY
               = Some Demo2.padded_key) by (vm_compute; reflexivity).
  assert (H2 : getenv Demo2.ai_blank_key OPENAI_API_KEY = Some [32; 9; 10])
    by (vm_compute; reflexivity).
  split; [exact H1|]. split.
  - exact (proj2 (X5_blank_key_selects_rule Demo2.ai_padded_key _
                    Demo.scenario_A H1) eq_refl).
  - split; [exact H2|].
    rewrite (proj1 (X5_blank_key_selects_rule Demo2.ai_blank_key _
                      Demo.scenario_A H2) eq_refl).
    vm_compute. reflexivity.
Defined.

(** ** Unwrapping a fenced answer *)

Lemma split_app_sep (sep : N) (p r : str) :
  split sep (p ++ sep :: r) = split sep p ++ split sep r.
Proof.
  induction p as [|c p IH]; cbn [app split].
  - rewrite N.eqb_refl. reflexivity.
  - rewrite IH. pose proof (split_nonempty sep p) as Hne.
    destruct (c =? sep); [reflexivity|].
    destruct (split sep p) as [|l ls]; [contradiction | reflexivity].
Qed.

Lemma filter_keeps_all {A} (f : A -> bool) (l : list A) :
  Forall (fun x => f x = true) l -> filter f l = l.
Proof.
  induction 1 as [|x l Hx _ IH]; cbn [filter]; [reflexivity|].
  rewrite Hx, IH. reflexivity.
Qed.

(** A line that opens with a fence still does after stripping. *)
Lemma fence_line_stripped (tag : str) :
  startswith (strip (fence ++ tag)) fence = true.
Proof.
  unfold strip. change (fence ++ tag) with (96 :: 96 :: 96 :: tag).
  rewrite lstrip_keeps by reflexivity.
  destruct (rstrip_upto [96; 96] tag 96 eq_refl) as [t' Ht].
  cbn [app] in Ht. rewrite Ht.
  apply startswith_iff. exists t'. reflexivity.
Qed.

(** X6: a payload wrapped in a fenced block - a fence with any info word,
    a newline, the payload, a newline, a fence - comes out of the clean-up
    exactly as it went in, whatever white space surrounds the block,
    provided no line of the payload itself starts with a fence. *)
Theorem X6_fenced_block_unwrapped (ws1 tag payload ws2 : str) :
  blank ws1 = true -> blank ws2 = true ->
  ~ In newline tag ->
  fence_free payload ->
  strip_markdown
    (ws1 ++ fence ++ tag ++ [newline] ++ payload ++ [newline] ++ fence ++ ws2)
  = payload.
Proof.
  intros H1 H2 Htag Hfree.
  set (mid := [96; 96] ++ tag ++ [newline] ++ payload ++ [newline; 96; 96]).
  assert (E : ws1 ++ fence ++ tag ++ [newline] ++ payload ++ [newline]
              ++ fence ++ ws2
              = ws1 ++ (96 :: mid ++ [96]) ++ ws2).
  { unfold mid. change fence with [96; 96; 96].
    cbn [app]. repeat (rewrite <- app_assoc; cbn [app]). reflexivity. }
  unfold strip_markdown. rewrite E.
  rewrite (strip_core ws1 ws2 mid 96 96 H1 H2 eq_refl eq_refl).
  assert (C : 96 :: mid ++ [96]
              = (fence ++ tag) ++ newline :: (payload ++ newline :: fence)).
  { unfold mid. change fence with [96; 96; 96].
    cbn [app]. repeat (rewrite <- app_assoc; cbn [app]). reflexivity. }
  rewrite C.
  assert (S : startswith ((fence ++ tag) ++ newline
                          :: (payload ++ newline :: fence)) fence = true).
  { apply startswith_iff. rewrite <- app_assoc. eexists; reflexivity. }
  rewrite S.
  rewrite split_app.
  2:{ intros Hin. apply in_app_or in Hin. destruct Hin as [Hin | Hin].
      - vm_compute in Hin. intuition discriminate.
      - exact (Htag Hin). }
  rewrite split_app_sep.
  cbn [filter]. rewrite fence_line_stripped. cbn [negb].
  rewrite filter_app.
  rewrite (filter_keeps_all _ (split newline payload)).
  2:{ unfold fence_free in Hfree. eapply Forall_impl; [|exact Hfree].
      cbn beta. intros l Hl. rewrite Hl. reflexivity. }
  change (filter (fun l => negb (startswith (strip l) fence))
            (split newline fence)) with (@nil str).
  rewrite app_nil_r. apply join_split.
Qed.

Lemma X6_witness :
  blank [] = true /\ blank [10] = true
  /\ ~ In newline (lit "json" ++ [13])
  /\ fence_free Demo2.json_wild
  /\ strip_markdown Demo2.fenced_wild = Demo2.json_wild.
Proof.
  assert (Ht : ~ In newline (lit "json" ++ [13])).
  { vm_compute. intuition discriminate. }
  assert (Hf : fence_free Demo2.json_wild).
  { unfold fence_free. vm_compute. repeat constructor. }
  split; [reflexivity|]. split; [reflexivity|].
  split; [exact Ht|]. split; [exact Hf|].
  exact (X6_fenced_block_unwrapped [] (lit "json" ++ [13]) Demo2.json_wild
           [10] eq_refl eq_refl Ht Hf).
Defined.

(** ** The response *)

(** X7: whatever [audit_contract] returns is one of two dicts.  It always
    carries the analyzer's result, unchanged, under [audit_result]; the
    status is [success] or [rejected]; and [document_hash] and
    [signature_from_oracle] are present together, exactly in the
    [success] response. *)
Theorem X7_response_shape X req r :
  result (audit_contract X req) = Ok r ->
  exists v d,
    result (analyze_legal_document X (document_content req)) = Ok v
    /\ r = PyDict d
    /\ lookup k_audit_result d = Some v
    /\ ((lookup k_status d = Some (PyStr (lit "success"))
         /\ (exists octets,
               Utf8.encode (document_content req) = Ok octets
               /\ lookup k_document_hash d
                  = Some (PyStr (SHA256.hexdigest octets)))
         /\ lookup k_signature_from_oracle d
            = Some (PyStr (lit "simulated_signature_0x123")))
        \/ (lookup k_status d = Some (PyStr (lit "rejected"))
            /\ lookup k_document_hash d = None
            /\ lookup k_signature_from_oracle d = None)).
Proof.
  intros Hr.
  destruct (audit_contract_run X req)
    as [[_ E] | [(_ & _ & E) | (Hw & Hs & E)]];
    rewrite E in Hr; cbn [result snd] in Hr; try discriminate.
  destruct (analyze_returns X (document_content req)) as [v Hv].
  rewrite (analysis_and_response_result X _ v Hv) in Hr.
  exists v.
  destruct (py_get v k_approved) as [a|e]; [|discriminate].
  destruct (is_True a).
  - destruct (Utf8.encode (document_content req)) as [o|e]; [|discriminate].
    inversion Hr; subst r. eexists. split; [exact Hv|].
    split; [reflexivity|]. split; [reflexivity|]. left.
    split; [reflexivity|]. split; [|reflexivity].
    exists o. split; reflexivity.
  - inversion Hr; subst r. eexists. split; [exact Hv|].
    split; [reflexivity|]. split; [reflexivity|]. right.
    repeat split.
Qed.

Lemma X7_witness :
  result (audit_contract Demo.ai_timeout Demo.req_A)
  = Ok (PyDict [ (k_status, PyStr (lit "rejected"));
                 (k_audit_result,
                  PyDict [ (k_approved, PyBool false);
                           (k_error, PyStr (lit "Request timed out.")) ]) ])
  /\ exists v d,
      result (analyze_legal_document Demo.ai_timeout Demo.scenario_A) = Ok v
      /\ lookup k_audit_result d = Some v.
Proof.
  assert (Hr : result (audit_contract Demo.ai_timeout Demo.req_A)
               = Ok (PyDict
                       [ (k_status, PyStr (lit "rejected"));
                         (k_audit_result,
                          PyDict [ (k_approved, PyBool false);
                                   (k_error,
                                    PyStr (lit "Request timed out.")) ]) ])).
  { vm_compute. reflexivity. }
  split; [exact Hr|].
  destruct (X7_response_shape Demo.ai_timeout Demo.req_A _ Hr)
    as (v & d & Hv & _ & Ha & _).
  exists v, d. split; [exact Hv | exact Ha].
Defined.

(** X15: past both gates, an analyzer result that is not a dict (the
    service answered valid JSON that is not an object) is not turned into
    a rejection: [ai_result.get] raises [AttributeError] out of
    [audit_contract]. *)
Theorem X15_non_object_answer_raises X req v :
  whitelisted X req ->
  signature_verdict X req = Ok true ->
  result (analyze_legal_document X (document_content req)) = Ok v ->
  (forall d, v <> PyDict d) ->
  exists text,
    result (audit_contract X req)
    = Raise (Exception (lit "AttributeError") text).
Proof.
  intros Hw Hs Hv Hnd.
  rewrite (audit_contract_past_gates X req v Hw Hs Hv).
  destruct v; cbn [py_get]; try (eexists; reflexivity).
  exfalso. exact (Hnd d eq_refl).
Qed.

Lemma X15_witness :
  whitelisted Demo.ai_array Demo.req_A
  /\ signature_verdict Demo.ai_array Demo.req_A = Ok true
  /\ result (analyze_legal_document Demo.ai_array Demo.scenario_A)
     = Ok (PyList [])
  /\ exists text,
      result (audit_contract Demo.ai_array Demo.req_A)
      = Raise (Exception (lit "AttributeError") text).
Proof.
  assert (Hw : whitelisted Demo.ai_array Demo.req_A).
  { left. vm_compute. reflexivity. }
  assert (Hs : signature_verdict Demo.ai_array Demo.req_A = Ok true).
  { vm_compute. reflexivity. }
  assert (Hv : result (analyze_legal_document Demo.ai_array
                         (document_content Demo.req_A)) = Ok (PyList [])).
  { vm_compute. reflexivity. }
  split; [exact Hw | split; [exact Hs | split; [exact Hv |]]].
  apply (X15_non_object_answer_raises Demo.ai_array Demo.req_A _ Hw Hs Hv).
  intros d. discriminate.
Defined.

(** ** The signer's spelling and the signed bytes *)

Lemma verify_signature_result_lower X w w' s m :
  lower X w = lower X w' ->
  result (verify_signature X w s m) = result (verify_signature X w' s m).
Proof.
  intros H. rewrite !verify_signature_run.
  destruct (encode_defunct m) as [enc|e]; [|reflexivity].
  cbn [result snd]. rewrite H. reflexivity.
Qed.

(** X8: the outcome of a request depends on [wallet_address] only through
    its lower-cased form: two spellings that lower-case alike get the same
    result from both gates and from the whole pipeline. *)
Theorem X8_wallet_spelling_irrelevant X req w :
  lower X w = lower X (wallet_address req) ->
  result (audit_contract X (with_wallet req w))
  = result (audit_contract X req).
Proof.
  intros H. rewrite !audit_contract_gates.
  unfold with_wallet; cbn [wallet_address signature document_content].
  rewrite H.
  destruct (set_mem (lower X (wallet_address req))
              (map (lower X) LEGAL_VALIDATORS_WHITELIST));
    cbn [negb]; [|reflexivity].
  pose proof (verify_signature_result_lower X w (wallet_address req)
                (signature req) (document_content req) H) as Hv.
  destruct (verify_signature_returns X (wallet_address req) (signature req)
              (document_content req)) as [b Hb].
  rewrite Hb in Hv.
  rewrite (bind_result_ok _ _ _ Hb), (bind_result_ok _ _ _ Hv).
  reflexivity.
Qed.

Lemma X8_witness :
  lower Demo.rules (Demo.lower_latin1 Demo.hardhat0)
  = lower Demo.rules (wallet_address Demo.req_B)
  /\ result (audit_contract Demo.rules
               (with_wallet Demo.req_B (Demo.lower_latin1 Demo.hardhat0)))
     = result (audit_contract Demo.rules Demo.req_B).
Proof.
  assert (H : lower Demo.rules (Demo.lower_latin1 Demo.hardhat0)
              = lower Demo.rules (wallet_address Demo.req_B)).
  { vm_compute. reflexivity. }
  split; [exact H|].
  exact (X8_wallet_spelling_irrelevant Demo.rules Demo.req_B _ H).
Defined.

Lemma encode_cp_surrogate (c : N) :
  Utf8.is_surrogate c = true -> Utf8.encode_cp c = None.
Proof.
  unfold Utf8.is_surrogate, Utf8.encode_cp. intros H.
  apply andb_true_iff in H. destruct H as [Hlo Hhi].
  apply N.leb_le in Hlo, Hhi.
  destruct (N.ltb_spec c 0x80); [lia|].
  destruct (N.ltb_spec c 0x800); [lia|].
  destruct (N.ltb_spec c 0x10000); [|lia].
  unfold Utf8.is_surrogate.
  apply N.leb_le in Hlo, Hhi. rewrite Hlo, Hhi. reflexivity.
Qed.

Lemma encode_opt_surrogate (s : str) (c : N) :
  In c s -> Utf8.is_surrogate c = true -> Utf8.encode_opt s = None.
Proof.
  intros Hin Hc. induction s as [|x s IH]; [destruct Hin|].
  cbn [Utf8.encode_opt]. destruct Hin as [-> | Hin].
  - rewrite (encode_cp_surrogate c Hc). reflexivity.
  - rewrite (IH Hin). destruct (Utf8.encode_cp x); reflexivity.
Qed.

(** X9: a document that holds a surrogate code point cannot be UTF-8
    encoded; from a whitelisted signer it is answered with the 401
    failure whatever the signature, and neither the recovery nor the
    analyzer is reached. *)
Theorem X9_unencodable_document X req c :
  whitelisted X req ->
  In c (document_content req) ->
  Utf8.is_surrogate c = true ->
  audit_contract X req
  = ([Enter_verify_signature (wallet_address req) (signature req)
        (document_content req)],
     Raise (HTTPException 401 detail_401)).
Proof.
  intros Hw Hin Hc.
  assert (He : exists e, encode_defunct (document_content req) = Raise e).
  { unfold encode_defunct, Utf8.encode.
    rewrite (encode_opt_surrogate _ c Hin Hc). eexists; reflexivity. }
  destruct He as [e He].
  rewrite (audit_contract_whitelisted X req Hw).
  rewrite verify_signature_run, He. reflexivity.
Qed.

Lemma X9_witness :
  whitelisted Demo.rules Demo2.req_unencodable
  /\ In 55357 (document_content Demo2.req_unencodable)
  /\ Utf8.is_surrogate 55357 = true
  /\ audit_contract Demo.rules Demo2.req_unencodable
     = ([Enter_verify_signature Demo.hardhat0 (lit "0xabc")
           Demo2.unencodable],
        Raise (HTTPException 401 detail_401)).
Proof.
  assert (Hw : whitelisted Demo.rules Demo2.req_unencodable).
  { left. vm_compute. reflexivity. }
  assert (Hin : In 55357 (document_content Demo2.req_unencodable)).
  { vm_compute. intuition. }
  split; [exact Hw | split; [exact Hin | split; [reflexivity |]]].
  exact (X9_unencodable_document Demo.rules Demo2.req_unencodable 55357
           Hw Hin eq_refl).
Defined.

(** X10: in a [success] response the digest is taken over the very octets
    the signature was checked against: the body of the EIP-191 message
    handed to the recovery is the UTF-8 encoding of [document_content],
    and [document_hash] is its SHA-256 in hexadecimal. *)
Theorem X10_hash_of_signed_bytes X req :
  status_of (result (audit_contract X req)) = Some (PyStr (lit "success")) ->
  exists enc d,
    encode_defunct (document_content req) = Ok enc
    /\ In (Call_recover_message enc (signature req))
          (trace (audit_contract X req))
    /\ Utf8.encode (document_content req) = Ok (body enc)
    /\ result (audit_contract X req) = Ok (PyDict d)
    /\ lookup k_document_hash d
       = Some (PyStr (SHA256.hexdigest (body enc))).
Proof.
  intros Hst.
  destruct (audit_contract_run X req)
    as [[_ E] | [(_ & _ & E) | (Hw & Hs & E)]];
    rewrite E in Hst |- *; cbn [result trace fst snd] in *;
    try discriminate.
  destruct (analyze_returns X (document_content req)) as [v Hv].
  rewrite (analysis_and_response_result X _ v Hv) in Hst |- *.
  destruct (py_get v k_approved) as [a|e]; [|discriminate].
  destruct (is_True a); [|vm_compute in Hst; discriminate].
  destruct (Utf8.encode (document_content req)) as [o|e] eqn:Ho;
    [|discriminate].
  eexists {| version := _; header := _; body := o |}, _.
  split; [unfold encode_defunct; rewrite Ho; reflexivity|].
  split.
  - rewrite verify_signature_run. unfold encode_defunct. rewrite Ho.
    cbn [trace fst]. apply in_or_app. left. right. left. reflexivity.
  - split; [reflexivity|]. split; reflexivity.
Qed.

Lemma X10_witness :
  status_of (result (audit_contract Demo.rules Demo.req_A))
  = Some (PyStr (lit "success"))
  /\ exists enc d,
      In (Call_recover_message enc (signature Demo.req_A))
         (trace (audit_contract Demo.rules Demo.req_A))
      /\ result (audit_contract Demo.rules Demo.req_A) = Ok (PyDict d)
      /\ lookup k_document_hash d
         = Some (PyStr (SHA256.hexdigest (body enc))).
Proof.
  assert (Hst : status_of (result (audit_contract Demo.rules Demo.req_A))
                = Some (PyStr (lit "success"))).
  { vm_compute. reflexivity. }
  split; [exact Hst|].
  destruct (X10_hash_of_signed_bytes Demo.rules Demo.req_A Hst)
    as (enc & d & _ & Hin & _ & Hr & Hh).
  exists enc, d. split; [exact Hin | split; [exact Hr | exact Hh]].
Defined.

(** ** The two analyzers, end to end *)

(** X11: without a usable API key, a request past both gates gets status
    [success] exactly when the lower-cased document contains both
    keywords, and status [rejected] otherwise; nothing else can come
    back. *)
Theorem X11_rule_mode_end_to_end X req :
  api_key_set (getenv X OPENAI_API_KEY) = false ->
  whitelisted X req ->
  signature_verdict X req = Ok true ->
  (status_of (result (audit_contract X req)) = Some (PyStr (lit "success"))
   <-> substring kw_redencion (lower X (document_content req))
       /\ substring kw_colateral (lower X (document_content req)))
  /\ (status_of (result (audit_contract X req))
      = Some (PyStr (lit "success"))
      \/ status_of (result (audit_contract X req))
         = Some (PyStr (lit "rejected"))).
Proof.
  intros Hkey Hw Hs.
  assert (Hv : result (analyze_legal_document X (document_content req))
               = Ok (rule_analysis X (document_content req))).
  { rewrite (analyze_rule_based X _ Hkey). reflexivity. }
  rewrite (audit_contract_past_gates X req _ Hw Hs Hv).
  destruct (verified_text_encodes X req Hs) as [o Ho]. rewrite Ho.
  rewrite rule_analysis_cases. unfold substring.
  destruct (contains kw_redencion (lower X (document_content req))
            && contains kw_colateral (lower X (document_content req)))
    eqn:E.
  - apply andb_true_iff in E. destruct E as [E1 E2].
    apply contains_iff in E1, E2.
    split; [|left; reflexivity].
    split; [intros _; split; assumption | intros _; reflexivity].
  - split; [|right; reflexivity].
    split; [intros H; vm_compute in H; discriminate|].
    intros [E1 E2]. apply contains_iff in E1, E2.
    rewrite E1, E2 in E. discriminate.
Qed.

Lemma X11_witness :
  api_key_set (getenv Demo.rules OPENAI_API_KEY) = false
  /\ whitelisted Demo.rules Demo.req_B
  /\ signature_verdict Demo.rules Demo.req_B = Ok true
  /\ (status_of (result (audit_contract Demo.rules Demo.req_B))
      = Some (PyStr (lit "success"))
      <-> substring kw_redencion (lower Demo.rules (lit "A plain lease."))
          /\ substring kw_colateral (lower Demo.rules (lit "A plain lease."))).
Proof.
  assert (Hw : whitelisted Demo.rules Demo.req_B).
  { left. vm_compute. reflexivity. }
  assert (Hs : signature_verdict Demo.rules Demo.req_B = Ok true).
  { vm_compute. reflexivity. }
  split; [reflexivity | split; [exact Hw | split; [exact Hs |]]].
  exact (proj1 (X11_rule_mode_end_to_end Demo.rules Demo.req_B eq_refl Hw Hs)).
Defined.

(** X12: with an API key, whatever object the service's answer parses to
    is the analysis: it is returned as it is and placed as it is under
    [audit_result], with no check of [risk_score] and no removal of other
    keys; only its [approved] entry decides between [success] and
    [rejected]. *)
Theorem X12_service_answer_passes_through X req key r c d :
  getenv X OPENAI_API_KEY = Some key ->
  api_key_set (Some key) = true ->
  chat_completions_create X key (chat_request (document_content req)) = Ok r ->
  first_choice r = Ok c ->
  json_loads X (strip_markdown (or_empty_object (content (message c))))
  = Ok (PyDict d) ->
  result (analyze_legal_document X (document_content req)) = Ok (PyDict d)
  /\ (whitelisted X req ->
      signature_verdict X req = Ok true ->
      exists octets,
        Utf8.encode (document_content req) = Ok octets
        /\ result (audit_contract X req)
           = Ok (PyDict
                   (match lookup k_approved d with
                    | Some (PyBool true) =>
                        [ (k_status, PyStr (lit "success"));
                          (k_audit_result, PyDict d);
                          (k_document_hash,
                           PyStr (SHA256.hexdigest octets));
                          (k_signature_from_oracle,
                           PyStr (lit "simulated_signature_0x123")) ]
                    | _ =>
                        [ (k_status, PyStr (lit "rejected"));
                          (k_audit_result, PyDict d) ]
                    end))).
Proof.
  intros Hk Hset Hc Hf Hj.
  assert (Hv : result (analyze_legal_document X (document_content req))
               = Ok (PyDict d)).
  { rewrite (analyze_ai_run X key _ Hk Hset). cbn [result snd].
    rewrite ai_analysis_result, Hc, Hf, Hj. reflexivity. }
  split; [exact Hv|]. intros Hw Hs.
  destruct (verified_text_encodes X req Hs) as [o Ho].
  exists o. split; [exact Ho|].
  rewrite (audit_contract_past_gates X req _ Hw Hs Hv), Ho.
  cbn [py_get].
  destruct (lookup k_approved d) as [[|[|]| | | | |]|]; reflexivity.
Qed.

Lemma X12_witness :
  getenv Demo2.ai_wild OPENAI_API_KEY = Some (lit "sk-test")
  /\ whitelisted Demo2.ai_wild Demo.req_A
  /\ signature_verdict Demo2.ai_wild Demo.req_A = Ok true
  /\ result (analyze_legal_document Demo2.ai_wild Demo.scenario_A)
     = Ok (PyDict [ (k_approved, PyBool true); (k_risk_score, PyInt 99);
                    (lit "note", PyNone) ])
  /\ status_of (result (audit_contract Demo2.ai_wild Demo.req_A))
     = Some (PyStr (lit "success")).
Proof.
  assert (Hk : getenv Demo2.ai_wild OPENAI_API_KEY = Some (lit "sk-test")).
  { vm_compute. reflexivity. }
  assert (Hw : whitelisted Demo2.ai_wild Demo.req_A).
  { left. vm_compute. reflexivity. }
  assert (Hs : signature_verdict Demo2.ai_wild Demo.req_A = Ok true).
  { vm_compute. reflexivity. }
  destruct (X12_service_answer_passes_through Demo2.ai_wild Demo.req_A
              (lit "sk-test")
              {| choices := [ {| message := {| content := Some Demo2.fenced_wild |} |} ] |}
              {| message := {| content := Some Demo2.fenced_wild |} |}
              [ (k_approved, PyBool true); (k_risk_score, PyInt 99);
                (lit "note", PyNone) ]
              Hk eq_refl eq_refl eq_refl)
    as [Hv Hr].
  { vm_compute. reflexivity. }
  split; [exact Hk | split; [exact Hw | split; [exact Hs |]]].
  split; [exact Hv|].
  destruct (Hr Hw Hs) as (o & _ & ->). reflexivity.
Defined.

(** X13: the user message sent to the service is the whole document
    exactly when the document has at most 12,000 characters; a longer one
    is always sent cut to 12,000. *)
Theorem X13_short_documents_sent_whole (text : str) :
  (messages (chat_request text)
   = [ (lit "system", RWA_AUDITOR_SYSTEM_PROMPT); (lit "user", text) ]
   <-> (List.length text <= N.to_nat 12000)%nat)
  /\ ((N.to_nat 12000 < List.length text)%nat ->
      List.length (slice_to 12000 text) = N.to_nat 12000).
Proof.
  unfold chat_request, slice_to. cbn [messages].
  generalize (N.to_nat 12000). intros n. split; [split|].
  - intros H. injection H as H.
    pose proof (length_firstn n text) as L. rewrite H in L. lia.
  - intros H. rewrite firstn_all2 by exact H. reflexivity.
  - intros H. rewrite length_firstn. lia.
Qed.

(** X14: a completion whose message has no content, or empty content, is
    parsed as the text [{}]; when that parses to the empty dict, the
    analysis has no [approved] entry and a request past both gates is
    rejected. *)
Theorem X14_empty_answer X req key r c :
  getenv X OPENAI_API_KEY = Some key ->
  api_key_set (Some key) = true ->
  chat_completions_create X key (chat_request (document_content req)) = Ok r ->
  first_choice r = Ok c ->
  content (message c) = None \/ content (message c) = Some [] ->
  result (analyze_legal_document X (document_content req))
  = Ok match json_loads X (lit "{}") with
       | Ok v => v
       | Raise e => rejection_of e
       end
  /\ (json_loads X (lit "{}") = Ok (PyDict []) ->
      whitelisted X req ->
      signature_verdict X req = Ok true ->
      result (audit_contract X req)
      = Ok (PyDict [ (k_status, PyStr (lit "rejected"));
                     (k_audit_result, PyDict []) ])).
Proof.
  intros Hk Hset Hc Hf Hcontent.
  assert (Hv : result (analyze_legal_document X (document_content req))
               = Ok match json_loads X (lit "{}") with
                    | Ok v => v
                    | Raise e => rejection_of e
                    end).
  { rewrite (analyze_ai_run X key _ Hk Hset). cbn [result snd].
    rewrite ai_analysis_result, Hc, Hf.
    destruct Hcontent as [-> | ->]; reflexivity. }
  split; [exact Hv|]. intros Hj Hw Hs. rewrite Hj in Hv.
  rewrite (audit_contract_past_gates X req _ Hw Hs Hv). reflexivity.
Qed.

Lemma X14_witness :
  getenv Demo2.ai_silent OPENAI_API_KEY = Some (lit "sk-test")
  /\ whitelisted Demo2.ai_silent Demo.req_A
  /\ signature_verdict Demo2.ai_silent Demo.req_A = Ok true
  /\ result (audit_contract Demo2.ai_silent Demo.req_A)
     = Ok (PyDict [ (k_status, PyStr (lit "rejected"));
                    (k_audit_result, PyDict []) ]).
Proof.
  assert (Hk : getenv Demo2.ai_silent OPENAI_API_KEY = Some (lit "sk-test")).
  { vm_compute. reflexivity. }
  assert (Hw : whitelisted Demo2.ai_silent Demo.req_A).
  { left. vm_compute. reflexivity. }
  assert (Hs : signature_verdict Demo2.ai_silent Demo.req_A = Ok true).
  { vm_compute. reflexivity. }
  split; [exact Hk | split; [exact Hw | split; [exact Hs |]]].
  refine (proj2 (X14_empty_answer Demo2.ai_silent Demo.req_A (lit "sk-test")
                   {| choices := [ {| message := {| content := None |} |} ] |}
                   {| message := {| content := None |} |}
                   Hk eq_refl eq_refl eq_refl (or_introl eq_refl))
            _ Hw Hs).
  vm_compute. reflexivity.
Defined.

(** The liveness probe answers without touching any collaborator. *)
Example health_is_static :
  health = ([], Ok (PyDict [ (lit "status", PyStr (lit "ok"));
                             (lit "service", PyStr (lit "legal-oracle")) ])).
Proof. reflexivity. Qed.
